(** * luigi.contrib.hdfs.config: configuration resolution and temporary paths

    A shallow embedding of [luigi/contrib/hdfs/config.py].  Python [str]
    values are Rocq strings whose characters are read as code points below
    256.  The pieces of the Python standard library that the module calls
    ([str.split], [str.lstrip], [str.startswith], [posixpath.join],
    [urlparse], [urlunparse]) are embedded from their CPython definitions,
    function by function, under their own names.  The two things the module
    reads from its surroundings, [getpass.getuser()] and [uuid4().hex], are
    arguments of [tmppath]. *)

From Stdlib Require Import Bool Arith Lia List.
From Stdlib Require Import Strings.Ascii Strings.String.
Import ListNotations.

Open Scope string_scope.
Open Scope bool_scope.

(** ** Exceptions *)

Inductive exn : Type :=
| ValueError (msg : string).

Inductive result (A : Type) : Type :=
| Ok (a : A)
| Raise (e : exn).

Arguments Ok {A} a.
Arguments Raise {A} e.

Definition bind {A B : Type} (m : result A) (k : A -> result B) : result B :=
  match m with
  | Ok a => k a
  | Raise e => Raise e
  end.

Notation "x <- m ;; k" := (bind m (fun x => k))
  (at level 61, m at next level, right associativity).

(** ** Python [str] operations *)

Module Str.

Definition sep : string := "/".

(** [c in s] for a one-character [c]. *)
Fixpoint contains (s : string) (c : ascii) : bool :=
  match s with
  | EmptyString => false
  | String d s' => Ascii.eqb d c || contains s' c
  end.

(** [s.startswith(p)] *)
Fixpoint startswith (s p : string) {struct p} : bool :=
  match p, s with
  | EmptyString, _ => true
  | String _ _, EmptyString => false
  | String c p', String d s' => Ascii.eqb d c && startswith s' p'
  end.

(** [s.endswith(p)]: [p] is [s] itself or a suffix of the tail of [s]. *)
Fixpoint endswith (s p : string) : bool :=
  String.eqb s p ||
  match s with
  | EmptyString => false
  | String _ s' => endswith s' p
  end.

(** [s.lstrip(chars)] *)
Fixpoint lstrip (s chars : string) : string :=
  match s with
  | EmptyString => EmptyString
  | String c s' => if contains chars c then lstrip s' chars else s
  end.

(** [s[:i]] for [0 <= i]. *)
Fixpoint take (i : nat) (s : string) : string :=
  match i, s with
  | S j, String c s' => String c (take j s')
  | _, _ => EmptyString
  end.

(** [s[i:]] for [0 <= i]. *)
Fixpoint drop (i : nat) (s : string) : string :=
  match i, s with
  | S j, String _ s' => drop j s'
  | _, _ => s
  end.

(** [s[i:j]] for [0 <= i] and [0 <= j]. *)
Definition slice (i j : nat) (s : string) : string :=
  take (j - i) (drop i s).

(** [s.find(c)] for a one-character [c]; [None] stands for [-1]. *)
Fixpoint find (s : string) (c : ascii) : option nat :=
  match s with
  | EmptyString => None
  | String d s' =>
      if Ascii.eqb d c then Some 0
      else match find s' c with
           | Some i => Some (S i)
           | None => None
           end
  end.

(** [s.find(c, start)] *)
Definition find_from (s : string) (c : ascii) (start : nat) : option nat :=
  if Nat.ltb (String.length s) start then None
  else match find (drop start s) c with
       | Some i => Some (start + i)
       | None => None
       end.

(** [s.rfind(c)] *)
Fixpoint rfind (s : string) (c : ascii) : option nat :=
  match s with
  | EmptyString => None
  | String d s' =>
      match rfind s' c with
      | Some i => Some (S i)
      | None => if Ascii.eqb d c then Some 0 else None
      end
  end.

(** [s.split(c, 1)] when [c in s]: the parts before and after the first
    [c]; when [c] does not occur the whole of [s] comes first. *)
Definition split1 (s : string) (c : ascii) : string * string :=
  match find s c with
  | Some i => (take i s, drop (S i) s)
  | None => (s, EmptyString)
  end.

Definition is_upper (c : ascii) : bool :=
  Nat.leb 65 (nat_of_ascii c) && Nat.leb (nat_of_ascii c) 90.

Definition lower_char (c : ascii) : ascii :=
  if is_upper c then ascii_of_nat (nat_of_ascii c + 32) else c.

(** [s.lower()] on the ASCII letters, the only ones a URL scheme holds. *)
Fixpoint lower (s : string) : string :=
  match s with
  | EmptyString => EmptyString
  | String c s' => String (lower_char c) (lower s')
  end.

(** [c.isspace()] on the code points below 256: tab, line feed, vertical
    tab, form feed, carriage return, the four separators 0x1c..0x1f, space,
    next line 0x85 and no-break space 0xa0. *)
Definition isspace (c : ascii) : bool :=
  let n := nat_of_ascii c in
  (Nat.leb 9 n && Nat.leb n 13) || (Nat.leb 28 n && Nat.leb n 32)
  || Nat.eqb n 133 || Nat.eqb n 160.

(** [s.split()] with no separator: the maximal runs of characters that are
    not whitespace, in order.  [word] is the run being read. *)
Fixpoint split_from (word s : string) : list string :=
  match s with
  | EmptyString =>
      match word with
      | EmptyString => []
      | _ => [word]
      end
  | String c s' =>
      if isspace c then
        match word with
        | EmptyString => split_from EmptyString s'
        | _ => word :: split_from EmptyString s'
        end
      else split_from (word ++ String c EmptyString) s'
  end.

Definition split (s : string) : list string := split_from EmptyString s.

(** ["/".split(sep)]-style splitting on one character: every occurrence of
    [c] ends a piece, so the pieces of a path are its segments. *)
Fixpoint split_on (c : ascii) (s : string) : list string :=
  match s with
  | EmptyString => [EmptyString]
  | String d s' =>
      if Ascii.eqb d c then EmptyString :: split_on c s'
      else match split_on c s' with
           | [] => [String d EmptyString]
           | w :: ws => String d w :: ws
           end
  end.

Definition in_list (s : string) (l : list string) : bool :=
  existsb (String.eqb s) l.

(** [c.isupper()] on the code points below 256: the letters A..Z and the
    Latin-1 capitals 0xc0..0xde, without the multiplication sign 0xd7. *)
Definition isupper (c : ascii) : bool :=
  let n := nat_of_ascii c in
  (Nat.leb 65 n && Nat.leb n 90)
  || (Nat.leb 192 n && Nat.leb n 222 && negb (Nat.eqb n 215)).

(** [s.lower()] on every code point below 256: each capital moves up by
    32, every other character stays. *)
Fixpoint str_lower (s : string) : string :=
  match s with
  | EmptyString => EmptyString
  | String c s' =>
      String (if isupper c then ascii_of_nat (nat_of_ascii c + 32) else c)
        (str_lower s')
  end.

(** [sep.join(l)] *)
Definition join (sep : string) (l : list string) : string :=
  String.concat sep l.

End Str.

(** ** [posixpath.join] with two arguments *)

Module posixpath.

Definition join (a b : string) : string :=
  if Str.startswith b Str.sep then b
  else if (String.eqb a "" || Str.endswith a Str.sep) then a ++ b
  else a ++ Str.sep ++ b.

End posixpath.

(** ** [urlparse] and [urlunparse]

    The URL functions of the Python standard library ([urlparse] in
    Python 2, [urllib.parse] in Python 3), as the module imports them. *)

Module urllib.

Record ParseResult : Type := mkParseResult {
  scheme : string;
  netloc : string;
  path : string;
  params : string;
  query : string;
  fragment : string
}.

Record SplitResult : Type := mkSplitResult {
  s_scheme : string;
  s_netloc : string;
  s_path : string;
  s_query : string;
  s_fragment : string
}.

Definition uses_netloc : list string :=
  [""; "ftp"; "http"; "gopher"; "nntp"; "telnet";
   "imap"; "wais"; "file"; "mms"; "https"; "shttp";
   "snews"; "prospero"; "rtsp"; "rtspu"; "rsync";
   "svn"; "svn+ssh"; "sftp"; "nfs"; "git"; "git+ssh";
   "ws"; "wss"].

Definition uses_params : list string :=
  [""; "ftp"; "hdl"; "prospero"; "http"; "imap";
   "https"; "shttp"; "rtsp"; "rtspu"; "sip"; "sips";
   "mms"; "sftp"; "tel"].

Definition scheme_chars : string :=
  "abcdefghijklmnopqrstuvwxyzABCDEFGHIJKLMNOPQRSTUVWXYZ0123456789+-.".

Definition digits : string := "0123456789".

(** [all(c in chars for c in s)] *)
Fixpoint all_in (s chars : string) : bool :=
  match s with
  | EmptyString => true
  | String c s' => Str.contains chars c && all_in s' chars
  end.

Definition _splitnetloc (url : string) (start : nat) : string * string :=
  let delim :=
    fold_left
      (fun delim c =>
         match Str.find_from url c start with
         | Some wdelim => Nat.min delim wdelim
         | None => delim
         end)
      ["/"; "?"; "#"]%char (String.length url) in
  (Str.slice start delim url, Str.drop delim url).

Definition _splitparams (url : string) : string * string :=
  if Str.contains url "/" then
    match Str.find_from url ";" (match Str.rfind url "/" with
                                 | Some j => j
                                 | None => 0
                                 end) with
    | Some i => (Str.take i url, Str.drop (S i) url)
    | None => (url, "")
    end
  else
    match Str.find url ";" with
    | Some i => (Str.take i url, Str.drop (S i) url)
    | None => (Str.take (String.length url - 1) url, url)
    end.

(** The part of [urlsplit] after the scheme has been decided: network
    location, fragment and query, in that order. *)
Definition urlsplit_rest (scheme url : string) : result SplitResult :=
  nu <- (if String.eqb (Str.take 2 url) "//" then
           let (netloc, url) := _splitnetloc url 2 in
           if (Str.contains netloc "[" && negb (Str.contains netloc "]"))
              || (Str.contains netloc "]" && negb (Str.contains netloc "["))
           then Raise (ValueError "Invalid IPv6 URL")
           else Ok (netloc, url)
         else Ok ("", url)) ;;
  let (netloc, url) := (nu : string * string) in
  let (url, fragment) :=
    if Str.contains url "#" then Str.split1 url "#" else (url, "") in
  let (url, query) :=
    if Str.contains url "?" then Str.split1 url "?" else (url, "") in
  Ok (mkSplitResult scheme netloc url query fragment).

Definition urlsplit (url : string) : result SplitResult :=
  match Str.find url ":" with
  | Some (S _ as i) =>
      if String.eqb (Str.take i url) "http" then
        urlsplit_rest (Str.lower (Str.take i url)) (Str.drop (S i) url)
      else if all_in (Str.take i url) scheme_chars then
        let rest := Str.drop (S i) url in
        if String.eqb rest "" || negb (all_in rest digits) then
          urlsplit_rest (Str.lower (Str.take i url)) rest
        else urlsplit_rest "" url
      else urlsplit_rest "" url
  | _ => urlsplit_rest "" url
  end.

Definition urlparse (url : string) : result ParseResult :=
  r <- urlsplit url ;;
  let (url, params) :=
    if Str.in_list (s_scheme r) uses_params && Str.contains (s_path r) ";"
    then _splitparams (s_path r)
    else (s_path r, "") in
  Ok (mkParseResult (s_scheme r) (s_netloc r) url params
        (s_query r) (s_fragment r)).

Definition urlunsplit (c : SplitResult) : string :=
  let url := s_path c in
  let url :=
    if negb (String.eqb (s_netloc c) "")
       || (negb (String.eqb (s_scheme c) "")
           && Str.in_list (s_scheme c) uses_netloc
           && negb (String.eqb (Str.take 2 url) "//"))
    then
      let url :=
        if negb (String.eqb url "") && negb (String.eqb (Str.take 1 url) "/")
        then "/" ++ url else url in
      "//" ++ s_netloc c ++ url
    else url in
  let url :=
    if negb (String.eqb (s_scheme c) "") then s_scheme c ++ ":" ++ url
    else url in
  let url :=
    if negb (String.eqb (s_query c) "") then url ++ "?" ++ s_query c
    else url in
  let url :=
    if negb (String.eqb (s_fragment c) "") then url ++ "#" ++ s_fragment c
    else url in
  url.

Definition urlunparse (c : ParseResult) : string :=
  let url :=
    if negb (String.eqb (params c) "") then path c ++ ";" ++ params c
    else path c in
  urlunsplit (mkSplitResult (scheme c) (netloc c) url (query c) (fragment c)).

End urllib.

(** ** The configuration classes

    Only the parameters that the functions below read are fields here;
    [None] is an [OptionalParameter] that is not set. *)

Record hdfs : Type := mkHdfs {
  client : string;
  tmp_dir : option string
}.

Record hadoopcli : Type := mkHadoopcli {
  command : string;
  version : string
}.

Definition hdfs_default : hdfs := mkHdfs "hadoopcli" None.

Definition hadoopcli_default : hadoopcli := mkHadoopcli "hadoop" "cdh4".

(** ** The functions of the module *)

Definition load_hadoop_cmd (cfg : hadoopcli) : list string :=
  Str.split (command cfg).

Definition get_configured_hadoop_version (cfg : hadoopcli) : string :=
  Str.str_lower (version cfg).

Definition snakebite_warning : string :=
  "snakebite client not compatible with python3 at the momentfalling back on hadoopcli".

(** The value returned, with the warnings emitted on the way.  [PY3] is
    [six.PY3]. *)
Definition get_configured_hdfs_client (PY3 : bool) (config : hdfs)
  : string * list string :=
  let custom := client config in
  let conf_usinf_snakebite :=
    ["snakebite_with_hadoopcli_fallback"; "snakebite"] in
  if PY3 && Str.in_list custom conf_usinf_snakebite
  then ("hadoopcli", [snakebite_warning])
  else (custom, []).

Definition temp_dir : string := "/tmp".

Definition addon (hex : string) : string := "luigitemp-" ++ hex.

(** Step 1 of [tmppath]: the directory the temporary path is placed in. *)
Definition tmppath_base_dir (config : hdfs) (path : option string)
  : result string :=
  match tmp_dir config with
  | Some configured_hdfs_tmp_dir => Ok configured_hdfs_tmp_dir
  | None =>
      match path with
      | Some p =>
          parsed <- urllib.urlparse p ;;
          Ok (urllib.urlunparse
                (urllib.mkParseResult (urllib.scheme parsed)
                   (urllib.netloc parsed) temp_dir "" "" ""))
      | None => Ok temp_dir
      end
  end.

(** Step 2 of [tmppath]: what is placed there, from the target path. *)
Definition tmppath_subdir (path : option string) : result string :=
  match path with
  | Some p =>
      subdir <- (if Str.startswith p (temp_dir ++ "/")
                 then Ok (Str.drop (String.length temp_dir) p)
                 else parsed <- urllib.urlparse p ;;
                      Ok (urllib.path parsed)) ;;
      Ok (Str.lstrip subdir "/" ++ "-")
  | None => Ok ""
  end.

(** [tmppath(path, include_unix_username)], under the configuration
    [config], where [getpass.getuser()] returns [user] and [uuid4().hex]
    returns [hex]. *)
Definition tmppath (config : hdfs) (user hex : string)
    (path : option string) (include_unix_username : bool) : result string :=
  base_dir <- tmppath_base_dir config path ;;
  subdir <- tmppath_subdir path ;;
  let subdir :=
    if include_unix_username then posixpath.join user subdir else subdir in
  Ok (posixpath.join base_dir (subdir ++ addon hex)).

(** ** Vocabulary of the properties *)

(** The segments of a path: its pieces between separators. *)
Definition segments (p : string) : list string := Str.split_on "/" p.

(** Two neighbouring segments that are both [tmp]. *)
Fixpoint doubled_tmp (segs : list string) : bool :=
  match segs with
  | a :: (b :: _) as rest =>
      (String.eqb a "tmp" && String.eqb b "tmp") || doubled_tmp rest
  | _ => false
  end.

Definition hexdigits : string := "0123456789abcdef".

(** What [uuid4().hex] returns: 32 lowercase hexadecimal digits. *)
Definition uuid_hex (hex : string) : bool :=
  Nat.eqb (String.length hex) 32 && urllib.all_in hex hexdigits.

(** The clients that [get_configured_hdfs_client] replaces under Python 3. *)
Definition snakebite_clients : list string :=
  ["snakebite"; "snakebite_with_hadoopcli_fallback"].

(** Every character of [s] is whitespace. *)
Fixpoint all_space (s : string) : bool :=
  match s with
  | EmptyString => true
  | String c s' => Str.isspace c && all_space s'
  end.

(** Some character of [s] is whitespace. *)
Fixpoint has_space (s : string) : bool :=
  match s with
  | EmptyString => false
  | String c s' => Str.isspace c || has_space s'
  end.

(** A token: not empty, and free of whitespace. *)
Definition token (t : string) : Prop := t <> "" /\ has_space t = false.

(** The characters of [s] that are not whitespace, in order. *)
Fixpoint without_space (s : string) : string :=
  match s with
  | EmptyString => EmptyString
  | String c s' =>
      if Str.isspace c then without_space s' else String c (without_space s')
  end.

(** No character of [s] is a capital. *)
Fixpoint no_upper (s : string) : bool :=
  match s with
  | EmptyString => true
  | String c s' => negb (Str.isupper c) && no_upper s'
  end.

(** The last segment of a path: what follows its last separator. *)
Definition basename (p : string) : string := last (segments p) "".

(** A user name as the system reports one: not empty, and with no
    separator at either end. *)
Definition user_name (user : string) : Prop :=
  user <> ""
  /\ Str.startswith user Str.sep = false
  /\ Str.endswith user Str.sep = false.

(** No character of [chars] occurs in [s]. *)
Fixpoint none_of (s chars : string) : bool :=
  match chars with
  | EmptyString => true
  | String c chars' => negb (Str.contains s c) && none_of s chars'
  end.

(** The target paths on which [urlparse] does not raise. *)
Definition valid_target (path : option string) : bool :=
  match path with
  | Some p => match urllib.urlparse p with
              | Ok _ => true
              | Raise _ => false
              end
  | None => true
  end.

(** The part of the result in front of the random token. *)
Definition tmppath_prefix (base_dir subdir : string) : string :=
  posixpath.join base_dir (subdir ++ "luigitemp-").

(** ** Strings *)

Section StringFacts.

Lemma append_nil_r (s : string) : s ++ "" = s.
Proof. induction s as [|c s IH]; simpl; congruence. Qed.

Lemma append_assoc (a b c : string) : (a ++ b) ++ c = a ++ (b ++ c).
Proof. induction a as [|x a IH]; simpl; congruence. Qed.

Lemma length_append (a b : string) :
  String.length (a ++ b) = String.length a + String.length b.
Proof. induction a as [|c a IH]; simpl; congruence. Qed.

Lemma append_inv_head (a x y : string) : a ++ x = a ++ y -> x = y.
Proof.
  induction a as [|c a IH]; simpl; intros H.
  - exact H.
  - injection H as H. auto.
Qed.

Lemma startswith_sep_cons (c : ascii) (s : string) :
  Str.startswith (String c s) Str.sep = Ascii.eqb c "/".
Proof.
  unfold Str.sep. simpl. now rewrite andb_true_r.
Qed.

Lemma startswith_sep_app (s t : string) :
  s <> "" -> Str.startswith (s ++ t) Str.sep = Str.startswith s Str.sep.
Proof.
  destruct s as [|c s]; [congruence|]. intros _.
  change (String c s ++ t) with (String c (s ++ t)).
  now rewrite !startswith_sep_cons.
Qed.

Lemma startswith_sep_app_nil (t : string) :
  Str.startswith ("" ++ t) Str.sep = Str.startswith t Str.sep.
Proof. reflexivity. Qed.

Lemma startswith_app (p s : string) : Str.startswith (p ++ s) p = true.
Proof.
  induction p as [|c p IH]; simpl; [reflexivity|].
  now rewrite Ascii.eqb_refl.
Qed.

Lemma startswith_app_l (p a b : string) :
  Str.startswith a p = true -> Str.startswith (a ++ b) p = true.
Proof.
  revert a.
  induction p as [|c p IH]; intros a; simpl; [reflexivity|].
  destruct a as [|d a]; simpl; [discriminate|].
  intros H. apply andb_true_iff in H as [-> H]. now apply IH.
Qed.

Lemma eqb_app_nonempty (a b : string) :
  b <> "" -> String.eqb (a ++ b) "" = false.
Proof.
  intros Hb. apply String.eqb_neq. intros H.
  destruct a; simpl in H; [congruence | discriminate].
Qed.

Lemma endswith_cons (c : ascii) (s p : string) :
  Str.endswith (String c s) p
  = String.eqb (String c s) p || Str.endswith s p.
Proof. reflexivity. Qed.

Lemma endswith_app (a b p : string) :
  String.length p <= String.length b ->
  Str.endswith (a ++ b) p = Str.endswith b p.
Proof.
  intros L. induction a as [|c a IH]; [reflexivity|].
  change (String c a ++ b) with (String c (a ++ b)).
  rewrite endswith_cons, IH.
  replace (String.eqb (String c (a ++ b)) p) with false; [reflexivity|].
  symmetry. apply String.eqb_neq. intros E.
  assert (E' : String.length (String c (a ++ b)) = String.length p)
    by now rewrite E.
  simpl in E'. rewrite length_append in E'. lia.
Qed.

Lemma endswith_sep_app (a b : string) :
  b <> "" -> Str.endswith (a ++ b) Str.sep = Str.endswith b Str.sep.
Proof.
  intros Hb. apply endswith_app.
  destruct b; [congruence | simpl; lia].
Qed.

End StringFacts.

(** ** [posixpath.join] *)

Section JoinFacts.

Lemma join_absolute (a b : string) :
  Str.startswith b Str.sep = true -> posixpath.join a b = b.
Proof. unfold posixpath.join. now intros ->. Qed.

Lemma join_relative (a b : string) :
  Str.startswith b Str.sep = false ->
  posixpath.join a b
  = if String.eqb a "" || Str.endswith a Str.sep then a ++ b
    else a ++ Str.sep ++ b.
Proof. unfold posixpath.join. now intros ->. Qed.

(** What follows a non-empty second component is carried along unchanged:
    it takes no part in the choice that [join] makes. *)
Lemma join_app (a b c : string) :
  b <> "" \/ Str.startswith c Str.sep = false ->
  posixpath.join a (b ++ c) = posixpath.join a b ++ c.
Proof.
  intros H. unfold posixpath.join.
  assert (E : Str.startswith (b ++ c) Str.sep = Str.startswith b Str.sep).
  { destruct b as [|x b].
    - destruct H as [H|H]; [congruence|]. simpl append. rewrite H.
      reflexivity.
    - now apply startswith_sep_app. }
  rewrite E.
  destruct (Str.startswith b Str.sep); [reflexivity|].
  destruct (String.eqb a "" || Str.endswith a Str.sep).
  - now rewrite append_assoc.
  - now rewrite !append_assoc.
Qed.

Lemma join_startswith (a b : string) :
  Str.startswith a Str.sep = false ->
  Str.startswith b Str.sep = false ->
  Str.startswith (posixpath.join a b) Str.sep = false.
Proof.
  intros Ha Hb. rewrite join_relative by exact Hb.
  destruct a as [|x a]; [exact Hb|].
  change (String.eqb (String x a) "") with false. cbn [orb].
  destruct (Str.endswith (String x a) Str.sep);
    (rewrite startswith_sep_app by discriminate; exact Ha).
Qed.

End JoinFacts.

(** ** The steps of [tmppath] *)

Section TmppathFacts.

Lemma lstrip_sep_dash (s : string) :
  Str.startswith (Str.lstrip s "/" ++ "-") Str.sep = false.
Proof.
  induction s as [|c s IH]; [reflexivity|].
  cbn [Str.lstrip Str.contains]. rewrite orb_false_r.
  destruct (Ascii.eqb "/" c) eqn:E; [exact IH|].
  change (String c s ++ "-") with (String c (s ++ "-")).
  rewrite startswith_sep_cons, Ascii.eqb_sym. exact E.
Qed.

Lemma tmppath_subdir_relative (path : option string) (subdir : string) :
  tmppath_subdir path = Ok subdir ->
  Str.startswith subdir Str.sep = false.
Proof.
  destruct path as [p|]; cbn [tmppath_subdir].
  - destruct (Str.startswith p (temp_dir ++ "/")).
    + cbn [bind]. intros [= <-]. apply lstrip_sep_dash.
    + destruct (urllib.urlparse p) as [parsed|e]; cbn [bind];
        [|discriminate].
      intros [= <-]. apply lstrip_sep_dash.
  - now intros [= <-].
Qed.

Lemma tmppath_steps_total (config : hdfs) (path : option string) :
  valid_target path = true ->
  exists base_dir subdir,
    tmppath_base_dir config path = Ok base_dir
    /\ tmppath_subdir path = Ok subdir.
Proof.
  unfold valid_target, tmppath_base_dir, tmppath_subdir.
  destruct path as [p|].
  - destruct (urllib.urlparse p) as [parsed|e]; [intros _|discriminate].
    destruct (tmp_dir config) as [d|],
             (Str.startswith p (temp_dir ++ "/")); cbn [bind];
      eauto.
  - intros _. destruct (tmp_dir config) as [d|]; eauto.
Qed.

(** The result is the prefix, which the token does not influence, followed
    by the token. *)
Lemma tmppath_prefix_hex (config : hdfs) (user hex : string)
    (path : option string) (include_unix_username : bool)
    (base_dir subdir : string) :
  tmppath_base_dir config path = Ok base_dir ->
  tmppath_subdir path = Ok subdir ->
  tmppath config user hex path include_unix_username
  = Ok (tmppath_prefix base_dir
          (if include_unix_username then posixpath.join user subdir
           else subdir) ++ hex).
Proof.
  intros Hb Hs. unfold tmppath, tmppath_prefix, addon.
  rewrite Hb, Hs. cbn [bind]. f_equal.
  rewrite <- append_assoc. apply join_app. left.
  intros E. apply (f_equal String.length) in E.
  rewrite length_append in E. simpl in E. lia.
Qed.

End TmppathFacts.

(** ** Base directory *)

Section BaseDir.

Lemma urlunparse_tmp (scheme netloc : string) :
  exists front,
    urllib.urlunparse (urllib.mkParseResult scheme netloc temp_dir "" "" "")
    = front ++ temp_dir.
Proof.
  unfold urllib.urlunparse, urllib.urlunsplit.
  cbn [urllib.scheme urllib.netloc urllib.path urllib.params urllib.query
       urllib.fragment urllib.s_scheme urllib.s_netloc urllib.s_path
       urllib.s_query urllib.s_fragment].
  change (String.eqb "" "") with true. cbn [negb].
  change (negb (String.eqb temp_dir "")
          && negb (String.eqb (Str.take 1 temp_dir) "/")) with false.
  cbv iota.
  destruct (negb (String.eqb netloc "")
            || negb (String.eqb scheme "")
               && Str.in_list scheme urllib.uses_netloc
               && negb (String.eqb (Str.take 2 temp_dir) "//"));
    destruct (negb (String.eqb scheme "")).
  - exists (scheme ++ ":" ++ "//" ++ netloc).
    now rewrite !append_assoc.
  - exists ("//" ++ netloc). now rewrite !append_assoc.
  - exists (scheme ++ ":"). now rewrite !append_assoc.
  - now exists "".
Qed.

(** Without an override the base directory ends in [/tmp], whatever the
    target is. *)
Lemma default_base_dir_ends_in_tmp (config : hdfs) (path : option string)
    (base_dir : string) :
  tmp_dir config = None ->
  tmppath_base_dir config path = Ok base_dir ->
  exists front, base_dir = front ++ temp_dir.
Proof.
  intros Hc. unfold tmppath_base_dir. rewrite Hc.
  destruct path as [p|].
  - destruct (urllib.urlparse p) as [parsed|e]; cbn [bind];
      [|discriminate].
    intros [= <-]. apply urlunparse_tmp.
  - intros [= <-]. now exists "".
Qed.

Lemma join_under (base rest : string) :
  Str.startswith rest Str.sep = false ->
  Str.startswith (posixpath.join base rest) base = true.
Proof.
  intros H. rewrite join_relative by exact H.
  destruct (String.eqb base "" || Str.endswith base Str.sep);
    apply startswith_app.
Qed.

Lemma join_under_sep (base rest : string) :
  Str.startswith rest Str.sep = false ->
  String.eqb base "" || Str.endswith base Str.sep = false ->
  Str.startswith (posixpath.join base rest) (base ++ Str.sep) = true.
Proof.
  intros H E. rewrite join_relative by exact H. rewrite E.
  rewrite <- append_assoc. apply startswith_app.
Qed.

Lemma qualified_subdir_relative (user subdir hex : string) (incl : bool) :
  Str.startswith user Str.sep = false ->
  Str.startswith subdir Str.sep = false ->
  Str.startswith
    ((if incl then posixpath.join user subdir else subdir) ++ addon hex)
    Str.sep = false.
Proof.
  intros Hu Hs.
  set (q := if incl then posixpath.join user subdir else subdir).
  assert (Hq : Str.startswith q Str.sep = false).
  { subst q. destruct incl; [now apply join_startswith | exact Hs]. }
  destruct q as [|c q]; [reflexivity|].
  rewrite startswith_sep_app by discriminate. exact Hq.
Qed.

End BaseDir.

(** ** Properties of [tmppath] that hold for every target *)

Section TmppathGeneral.

Variable config : hdfs.
Variables user : string.

(** C6.  Two calls of [tmppath] with the same valid target, under the same
    configuration and user, both return, and whenever their random tokens
    differ the two returned paths differ. *)
Theorem tmppath_distinct_tokens (path : option string)
    (include_unix_username : bool) (hex1 hex2 : string) :
  valid_target path = true ->
  hex1 <> hex2 ->
  exists r1 r2,
    tmppath config user hex1 path include_unix_username = Ok r1
    /\ tmppath config user hex2 path include_unix_username = Ok r2
    /\ r1 <> r2.
Proof.
  intros Hv Hne.
  destruct (tmppath_steps_total config path Hv) as (b & s & Hb & Hs).
  do 2 eexists.
  rewrite !(tmppath_prefix_hex _ _ _ _ _ _ _ Hb Hs).
  repeat split. intros E. apply append_inv_head in E. contradiction.
Qed.

(** C5.  When the [tmp_dir] override is set, it is the base directory as it
    stands, for every target (given or not) and whatever the target's scheme
    and network location are; the result is the join of the override with
    the subdirectory and the random suffix. *)
Theorem tmp_dir_override_is_base_dir (d hex : string)
    (path : option string) (include_unix_username : bool) :
  tmp_dir config = Some d ->
  tmppath_base_dir config path = Ok d
  /\ tmppath config user hex path include_unix_username
     = (subdir <- tmppath_subdir path ;;
        Ok (posixpath.join d
              ((if include_unix_username then posixpath.join user subdir
                else subdir) ++ addon hex))).
Proof.
  intros Hd.
  assert (Hb : tmppath_base_dir config path = Ok d).
  { unfold tmppath_base_dir. now rewrite Hd. }
  split; [exact Hb|].
  unfold tmppath. now rewrite Hb.
Qed.

(** C2, as the code has it.  An empty target is a target: it gets the same
    base directory as an absent one, but its subdirectory is ["-"] where an
    absent target has the empty one, so the two results differ by that
    ["-"] in front of the random suffix. *)
Theorem tmppath_empty_target_keeps_dash (hex : string)
    (include_unix_username : bool) :
  tmppath_base_dir config (Some "") = tmppath_base_dir config None
  /\ tmppath_subdir (Some "") = Ok "-"
  /\ tmppath_subdir None = Ok ""
  /\ (exists front,
        tmppath config user hex None include_unix_username
        = Ok (front ++ addon hex)
        /\ tmppath config user hex (Some "") include_unix_username
           = Ok (front ++ "-" ++ addon hex))
  /\ tmppath config user hex (Some "") include_unix_username
     <> tmppath config user hex None include_unix_username.
Proof.
  assert (Hb : tmppath_base_dir config (Some "")
               = tmppath_base_dir config None).
  { unfold tmppath_base_dir. now destruct (tmp_dir config). }
  assert (Hs : tmppath_subdir (Some "") = Ok "-") by reflexivity.
  assert (Hn : tmppath_subdir None = Ok "") by reflexivity.
  assert (Hbase : exists b, tmppath_base_dir config None = Ok b).
  { unfold tmppath_base_dir. destruct (tmp_dir config); eauto. }
  destruct Hbase as [b Hb0].
  set (u := if include_unix_username then posixpath.join user "" else "").
  assert (Hfront :
            tmppath config user hex None include_unix_username
            = Ok (posixpath.join b u ++ addon hex)
            /\ tmppath config user hex (Some "") include_unix_username
               = Ok (posixpath.join b u ++ "-" ++ addon hex)).
  { unfold tmppath. rewrite Hb, Hb0, Hs, Hn. cbn [bind]. fold u.
    split; f_equal.
    - apply join_app. now right.
    - replace (if include_unix_username then posixpath.join user "-"
               else "-") with (u ++ "-").
      + rewrite append_assoc. apply join_app. now right.
      + subst u. destruct include_unix_username; [|reflexivity].
        symmetry. apply (join_app user "" "-"). now right. }
  repeat split; try assumption.
  - exists (posixpath.join b u). exact Hfront.
  - destruct Hfront as [-> ->]. intros [= E].
    apply append_inv_head in E. discriminate.
Qed.

(** C9, as the code has it.  With a user name that does not begin with
    ["/"], the final join never discards the base directory: the result
    begins with the base directory, and with the base directory followed by
    a separator whenever the base directory is not empty and does not end
    in one already, which is so whenever no override is configured. *)
Theorem tmppath_under_base_dir (hex : string) (path : option string)
    (include_unix_username : bool) (base_dir r : string) :
  Str.startswith user Str.sep = false ->
  tmppath_base_dir config path = Ok base_dir ->
  tmppath config user hex path include_unix_username = Ok r ->
  Str.startswith r base_dir = true
  /\ (String.eqb base_dir "" || Str.endswith base_dir Str.sep = false ->
      Str.startswith r (base_dir ++ Str.sep) = true)
  /\ (tmp_dir config = None ->
      Str.startswith r (base_dir ++ Str.sep) = true).
Proof.
  intros Hu Hb Hr. unfold tmppath in Hr. rewrite Hb in Hr. cbn [bind] in Hr.
  destruct (tmppath_subdir path) as [subdir|e] eqn:Hs; [|discriminate].
  cbn [bind] in Hr. injection Hr as <-.
  pose proof (qualified_subdir_relative user subdir hex
                include_unix_username Hu
                (tmppath_subdir_relative _ _ Hs)) as Hrel.
  split; [|split].
  - now apply join_under.
  - intros E. now apply join_under_sep.
  - intros Hc. apply join_under_sep; [exact Hrel|].
    destruct (default_base_dir_ends_in_tmp _ _ _ Hc Hb) as [front ->].
    rewrite eqb_app_nonempty by discriminate.
    now rewrite endswith_sep_app by discriminate.
Qed.

End TmppathGeneral.

(** ** [tmppath] on particular targets *)

Section TmppathTargets.

(** C1.  For the target [hdfs://nn:8020/a/b/c], with no override and the
    user name included, the base directory is [hdfs://nn:8020/tmp] (the
    target's scheme and network location with the path [/tmp]), the
    subdirectory is [a/b/c-], and the result is
    [hdfs://nn:8020/tmp/<user>/a/b/c-] followed by the random suffix.  The
    user name is one the system reports: not empty, and neither beginning
    nor ending with the separator. *)
Theorem tmppath_hdfs_target (config : hdfs) (user hex : string) :
  tmp_dir config = None ->
  user <> "" ->
  Str.startswith user Str.sep = false ->
  Str.endswith user Str.sep = false ->
  tmppath_base_dir config (Some "hdfs://nn:8020/a/b/c")
  = Ok "hdfs://nn:8020/tmp"
  /\ tmppath_subdir (Some "hdfs://nn:8020/a/b/c") = Ok "a/b/c-"
  /\ tmppath config user hex (Some "hdfs://nn:8020/a/b/c") true
     = Ok ("hdfs://nn:8020/tmp/" ++ user ++ "/a/b/c-" ++ addon hex).
Proof.
  intros Hc Hne Hstart Hend.
  assert (Hb : tmppath_base_dir config (Some "hdfs://nn:8020/a/b/c")
               = Ok "hdfs://nn:8020/tmp").
  { unfold tmppath_base_dir. rewrite Hc. reflexivity. }
  assert (Hs : tmppath_subdir (Some "hdfs://nn:8020/a/b/c") = Ok "a/b/c-")
    by reflexivity.
  split; [exact Hb|]. split; [exact Hs|].
  unfold tmppath. rewrite Hb, Hs. cbn [bind]. f_equal.
  assert (Hu : posixpath.join user "a/b/c-" = user ++ "/a/b/c-").
  { rewrite join_relative by reflexivity.
    apply String.eqb_neq in Hne. now rewrite Hne, Hend. }
  rewrite Hu, append_assoc.
  rewrite join_relative by (now rewrite startswith_sep_app).
  reflexivity.
Qed.

(** C4.  For the target [/tmp/foo] the subdirectory is [foo-], not
    [tmp/foo-]; for every target that starts with [/tmp/], only [/tmp] is
    cut off, and what remains loses its leading separators and gains a
    trailing [-]. *)
Theorem tmppath_subdir_tmp_foo :
  tmppath_subdir (Some "/tmp/foo") = Ok "foo-"
  /\ tmppath_subdir (Some "/tmp/foo") <> Ok "tmp/foo-"
  /\ (forall rest : string,
        tmppath_subdir (Some ("/tmp/" ++ rest))
        = Ok (Str.lstrip rest "/" ++ "-"))
  /\ (forall hex : string,
        tmppath hdfs_default "luigi" hex (Some "/tmp/foo") false
        = Ok ("/tmp/foo-" ++ addon hex))
  /\ (forall hex : string,
        tmppath hdfs_default "luigi" hex (Some "/tmp/foo") true
        = Ok ("/tmp/luigi/foo-" ++ addon hex)).
Proof.
  split; [reflexivity|]. split; [discriminate|].
  split; [|split; intros hex; reflexivity].
  intros rest. unfold tmppath_subdir.
  change (temp_dir ++ "/") with "/tmp/".
  now rewrite startswith_app.
Qed.

End TmppathTargets.

(** ** Segments *)

Section Segments.

Lemma segments_no_sep (s : string) :
  Str.contains s "/" = false -> segments s = [s].
Proof.
  unfold segments. induction s as [|c s IH]; [reflexivity|].
  cbn [Str.contains Str.split_on]. intros H.
  apply orb_false_iff in H as [Hc Hs].
  rewrite Hc, (IH Hs). reflexivity.
Qed.

Lemma segments_app (a t : string) :
  Str.contains a "/" = false ->
  segments (a ++ "/" ++ t) = a :: segments t.
Proof.
  unfold segments. induction a as [|c a IH]; [reflexivity|].
  cbn [Str.contains]. intros H.
  apply orb_false_iff in H as [Hc Ha].
  change (String c a ++ "/" ++ t) with (String c (a ++ "/" ++ t)).
  cbn [Str.split_on]. rewrite Hc, (IH Ha). reflexivity.
Qed.

Lemma no_sep_startswith (s : string) :
  Str.contains s "/" = false -> Str.startswith s Str.sep = false.
Proof.
  destruct s as [|c s]; [reflexivity|].
  cbn [Str.contains]. intros H. apply orb_false_iff in H as [Hc _].
  now rewrite startswith_sep_cons.
Qed.

Lemma no_sep_endswith (s : string) :
  Str.contains s "/" = false -> Str.endswith s Str.sep = false.
Proof.
  induction s as [|c s IH]; [reflexivity|].
  cbn [Str.contains]. intros H. apply orb_false_iff in H as [Hc Hs].
  rewrite endswith_cons, (IH Hs), orb_false_r.
  apply String.eqb_neq. intros [= -> _]. discriminate.
Qed.

Lemma all_in_hexdigits_no_sep (hex : string) :
  urllib.all_in hex hexdigits = true -> Str.contains hex "/" = false.
Proof.
  induction hex as [|c hex IH]; [reflexivity|].
  cbn [urllib.all_in Str.contains]. intros H.
  apply andb_true_iff in H as [Hc Hh]. rewrite (IH Hh), orb_false_r.
  destruct (Ascii.eqb c "/") eqn:E; [|reflexivity].
  apply Ascii.eqb_eq in E. subst c. discriminate.
Qed.

Lemma uuid_hex_no_sep (hex : string) :
  uuid_hex hex = true -> Str.contains hex "/" = false.
Proof.
  unfold uuid_hex. intros H. apply andb_true_iff in H as [_ H].
  now apply all_in_hexdigits_no_sep.
Qed.

End Segments.

(** ** Targets that are the temporary directory itself *)

Section TmpTarget.

Lemma segments_under_tmp (x : string) :
  Str.contains x "/" = false ->
  segments ("/tmp" ++ Str.sep ++ x) = [""; "tmp"; x].
Proof.
  intros Hx.
  change ("/tmp" ++ Str.sep ++ x) with ("" ++ "/" ++ ("tmp" ++ "/" ++ x)).
  rewrite !segments_app by reflexivity.
  now rewrite segments_no_sep.
Qed.

Lemma segments_under_tmp_user (user x : string) :
  Str.contains user "/" = false ->
  Str.contains x "/" = false ->
  segments ("/tmp" ++ Str.sep ++ user ++ "/" ++ x) = [""; "tmp"; user; x].
Proof.
  intros Hu Hx.
  change ("/tmp" ++ Str.sep ++ user ++ "/" ++ x)
    with ("" ++ "/" ++ ("tmp" ++ "/" ++ (user ++ "/" ++ x))).
  rewrite !segments_app by (reflexivity || assumption).
  now rewrite segments_no_sep.
Qed.

Lemma join_tmp_relative (x : string) :
  Str.startswith x Str.sep = false ->
  posixpath.join "/tmp" x = "/tmp" ++ Str.sep ++ x.
Proof. intros H. rewrite join_relative by exact H. reflexivity. Qed.

Lemma no_doubled_tmp_under_tmp (user hex subdir : string) (incl : bool) :
  Str.contains (subdir ++ addon hex) "/" = false ->
  Str.contains subdir "/" = false ->
  subdir ++ addon hex <> "tmp" ->
  (incl = true -> Str.contains user "/" = false /\ user <> "tmp") ->
  doubled_tmp
    (segments
       (posixpath.join "/tmp"
          ((if incl then posixpath.join user subdir else subdir)
           ++ addon hex))) = false.
Proof.
  intros Hx Hsub Hne Hu.
  apply String.eqb_neq in Hne.
  assert (Hplain :
            doubled_tmp
              (segments (posixpath.join "/tmp" (subdir ++ addon hex)))
            = false).
  { rewrite join_tmp_relative by now apply no_sep_startswith.
    rewrite segments_under_tmp by exact Hx.
    cbn [doubled_tmp]. rewrite Hne. reflexivity. }
  destruct incl; [|exact Hplain].
  destruct (Hu eq_refl) as [Hus Hut].
  apply String.eqb_neq in Hut.
  rewrite (join_relative user subdir) by now apply no_sep_startswith.
  destruct user as [|c user]; [exact Hplain|].
  change (String.eqb (String c user) "") with false.
  rewrite (no_sep_endswith _ Hus). cbn [orb].
  rewrite !append_assoc.
  rewrite join_tmp_relative
    by (rewrite startswith_sep_app by discriminate;
        now apply no_sep_startswith).
  rewrite segments_under_tmp_user by assumption.
  cbn [doubled_tmp]. rewrite Hut. reflexivity.
Qed.

(** C3.  For a target that is exactly [/tmp] or [/tmp/], with no override:
    what the target contributes to the result (its subdirectory with the
    random suffix) has no segment [tmp], and the result has no two
    neighbouring [tmp] segments.  The random token is a [uuid4().hex], and
    a user name that is included is a single segment other than [tmp]. *)
Theorem tmppath_tmp_target_no_doubled_tmp (config : hdfs)
    (user hex path : string) (include_unix_username : bool) :
  tmp_dir config = None ->
  path = "/tmp" \/ path = "/tmp/" ->
  uuid_hex hex = true ->
  (include_unix_username = true ->
   Str.contains user "/" = false /\ user <> "tmp") ->
  exists subdir r,
    tmppath_subdir (Some path) = Ok subdir
    /\ ~ In "tmp" (segments (subdir ++ addon hex))
    /\ tmppath config user hex (Some path) include_unix_username = Ok r
    /\ doubled_tmp (segments r) = false.
Proof.
  intros Hc Hp Hhex Hu.
  pose proof (uuid_hex_no_sep _ Hhex) as Hh.
  assert (Hb : tmppath_base_dir config (Some path) = Ok "/tmp").
  { unfold tmppath_base_dir. rewrite Hc.
    destruct Hp as [-> | ->]; reflexivity. }
  assert (Hs : exists subdir,
             tmppath_subdir (Some path) = Ok subdir
             /\ Str.contains (subdir ++ addon hex) "/" = false
             /\ Str.contains subdir "/" = false
             /\ subdir ++ addon hex <> "tmp").
  { destruct Hp as [-> | ->]; [exists "tmp-" | exists "-"];
      (repeat split; [exact Hh | discriminate]). }
  destruct Hs as (subdir & Hs & Hx & Hsub & Hne).
  exists subdir. eexists. split; [exact Hs|]. split; [|split].
  - rewrite segments_no_sep by exact Hx. intros [E | []].
    now apply Hne.
  - unfold tmppath. rewrite Hb, Hs. reflexivity.
  - now apply no_doubled_tmp_under_tmp.
Qed.

End TmpTarget.

(** ** The configured client *)

Section Client.

Lemma in_list_In (s : string) (l : list string) :
  Str.in_list s l = true <-> In s l.
Proof.
  unfold Str.in_list. rewrite existsb_exists. split.
  - intros (x & Hx & E). apply String.eqb_eq in E. now subst.
  - intros H. exists s. split; [exact H | apply String.eqb_refl].
Qed.

(** C7.  Under Python 3, a configured client that is one of the two
    snakebite clients is replaced by [hadoopcli], with exactly one warning
    and no exception; in every other case (Python 2, or any other client
    name, known or not) the configured value comes back as it is, with no
    warning. *)
Theorem get_configured_hdfs_client_spec (PY3 : bool) (config : hdfs) :
  (PY3 = true -> In (client config) snakebite_clients ->
   get_configured_hdfs_client PY3 config
   = ("hadoopcli", [snakebite_warning]))
  /\ (PY3 = false \/ ~ In (client config) snakebite_clients ->
      get_configured_hdfs_client PY3 config = (client config, [])).
Proof.
  unfold get_configured_hdfs_client.
  set (l := ["snakebite_with_hadoopcli_fallback"; "snakebite"]).
  assert (Hl : In (client config) l <-> In (client config) snakebite_clients).
  { unfold l, snakebite_clients. simpl. tauto. }
  split.
  - intros -> Hin. apply Hl, in_list_In in Hin. now rewrite Hin.
  - intros [-> | Hn]; [reflexivity|].
    destruct (Str.in_list (client config) l) eqn:E.
    + apply in_list_In, Hl in E. contradiction.
    + now rewrite andb_false_r.
Qed.

End Client.

(** ** The hadoop command *)

Section Command.

Lemma split_from_tokens (s word : string) :
  has_space word = false ->
  Forall token (Str.split_from word s).
Proof.
  revert word. induction s as [|c s IH]; intros word Hw.
  - destruct word; constructor; [|constructor].
    split; [discriminate | exact Hw].
  - cbn [Str.split_from]. destruct (Str.isspace c) eqn:Hc.
    + destruct word.
      * now apply IH.
      * constructor; [split; [discriminate | exact Hw] | now apply IH].
    + apply IH. clear IH. induction word as [|d word IHw].
      * simpl. now rewrite Hc.
      * cbn [has_space append] in *.
        apply orb_false_iff in Hw as [Hd Hw].
        now rewrite Hd, (IHw Hw).
Qed.

Lemma split_from_all_space (s : string) :
  all_space s = true -> Str.split_from "" s = [].
Proof.
  induction s as [|c s IH]; [reflexivity|].
  cbn [all_space Str.split_from]. intros H.
  apply andb_true_iff in H as [-> Hs]. now apply IH.
Qed.

Lemma split_from_word (u word s : string) :
  has_space u = false ->
  Str.split_from word (u ++ s) = Str.split_from (word ++ u) s.
Proof.
  revert word. induction u as [|c u IH]; intros word Hu.
  - now rewrite append_nil_r.
  - cbn [has_space] in Hu. apply orb_false_iff in Hu as [Hc Hu].
    change (String c u ++ s) with (String c (u ++ s)).
    cbn [Str.split_from]. rewrite Hc, (IH _ Hu), append_assoc.
    reflexivity.
Qed.

Lemma split_from_space (ws word s : string) :
  all_space ws = true -> ws <> "" -> word <> "" ->
  Str.split_from word (ws ++ s) = word :: Str.split_from "" s.
Proof.
  intros Hws Hne Hw.
  destruct ws as [|c ws]; [congruence|]. clear Hne.
  cbn [all_space] in Hws. apply andb_true_iff in Hws as [Hc Hws].
  change (String c ws ++ s) with (String c (ws ++ s)).
  cbn [Str.split_from]. rewrite Hc.
  destruct word as [|d word]; [congruence|]. f_equal.
  clear Hc. induction ws as [|e ws IH]; [reflexivity|].
  cbn [all_space] in Hws. apply andb_true_iff in Hws as [He Hws].
  change (String e ws ++ s) with (String e (ws ++ s)).
  cbn [Str.split_from]. rewrite He. now apply IH.
Qed.

Lemma split_two_words (u ws v : string) :
  token u -> all_space ws = true -> ws <> "" -> token v ->
  Str.split (u ++ ws ++ v) = [u; v].
Proof.
  intros [Hu Hus] Hws Hne [Hv Hvs]. unfold Str.split.
  rewrite split_from_word by exact Hus. cbn [append].
  rewrite split_from_space by assumption. f_equal.
  rewrite <- (append_nil_r v) at 1.
  rewrite split_from_word by exact Hvs. cbn [append Str.split_from].
  destruct v; [congruence | reflexivity].
Qed.

(** C8.  The configured command ["hadoop --config /etc/hadoop"] is split
    into [hadoop], [--config], [/etc/hadoop]; the split is on whitespace
    alone, so a quoted argument with a space inside is cut in two. *)
Theorem load_hadoop_cmd_splits_on_whitespace (v : string) :
  load_hadoop_cmd (mkHadoopcli "hadoop --config /etc/hadoop" v)
  = ["hadoop"; "--config"; "/etc/hadoop"]
  /\ load_hadoop_cmd (mkHadoopcli "hadoop --name 'a b'" v)
     = ["hadoop"; "--name"; "'a"; "b'"].
Proof. split; reflexivity. Qed.

(** C10.  [load_hadoop_cmd] returns a list for every configured command,
    and every token in it is non-empty and free of whitespace; a command
    that is empty or all whitespace gives no token at all; a run of
    whitespace between two words separates them once, however long it
    is. *)
Theorem load_hadoop_cmd_tokens (cfg : hadoopcli) :
  Forall token (load_hadoop_cmd cfg)
  /\ (all_space (command cfg) = true -> load_hadoop_cmd cfg = [])
  /\ (forall u ws v : string,
        token u -> all_space ws = true -> ws <> "" -> token v ->
        command cfg = u ++ ws ++ v ->
        load_hadoop_cmd cfg = [u; v]).
Proof.
  unfold load_hadoop_cmd. split; [|split].
  - now apply split_from_tokens.
  - apply split_from_all_space.
  - intros u ws v Hu Hws Hne Hv ->. now apply split_two_words.
Qed.

End Command.

(** ** The theorems at concrete inputs *)

Section Instances.

Lemma tmppath_hdfs_target_luigi :
  (tmp_dir hdfs_default = None
   /\ "luigi" <> ""
   /\ Str.startswith "luigi" Str.sep = false
   /\ Str.endswith "luigi" Str.sep = false)
  /\ tmppath hdfs_default "luigi" "0123456789abcdef0123456789abcdef"
       (Some "hdfs://nn:8020/a/b/c") true
     = Ok "hdfs://nn:8020/tmp/luigi/a/b/c-luigitemp-0123456789abcdef0123456789abcdef".
Proof.
  assert (Hne : "luigi" <> "") by discriminate.
  split; [exact (conj eq_refl (conj Hne (conj eq_refl eq_refl)))|].
  exact (proj2 (proj2 (tmppath_hdfs_target hdfs_default "luigi"
                         "0123456789abcdef0123456789abcdef"
                         eq_refl Hne eq_refl eq_refl))).
Defined.

(** An empty target and an absent target give different results. *)
Lemma tmppath_empty_target_differs :
  tmppath hdfs_default "luigi" "0123456789abcdef0123456789abcdef"
    (Some "") true
  = Ok "/tmp/luigi/-luigitemp-0123456789abcdef0123456789abcdef"
  /\ tmppath hdfs_default "luigi" "0123456789abcdef0123456789abcdef"
       None true
     = Ok "/tmp/luigi/luigitemp-0123456789abcdef0123456789abcdef"
  /\ tmppath hdfs_default "luigi" "0123456789abcdef0123456789abcdef"
       (Some "") true
     <> tmppath hdfs_default "luigi" "0123456789abcdef0123456789abcdef"
          None true.
Proof.
  split; [reflexivity|]. split; [reflexivity|]. discriminate.
Qed.

Lemma tmppath_tmp_target_luigi :
  (tmp_dir hdfs_default = None
   /\ ("/tmp" = "/tmp" \/ "/tmp" = "/tmp/")
   /\ uuid_hex "0123456789abcdef0123456789abcdef" = true
   /\ (true = true -> Str.contains "luigi" "/" = false /\ "luigi" <> "tmp"))
  /\ exists subdir r,
       tmppath_subdir (Some "/tmp") = Ok subdir
       /\ ~ In "tmp"
            (segments
               (subdir ++ addon "0123456789abcdef0123456789abcdef"))
       /\ tmppath hdfs_default "luigi" "0123456789abcdef0123456789abcdef"
            (Some "/tmp") true = Ok r
       /\ doubled_tmp (segments r) = false.
Proof.
  assert (Hu : true = true ->
               Str.contains "luigi" "/" = false /\ "luigi" <> "tmp").
  { intros _. split; [reflexivity | discriminate]. }
  split;
    [exact (conj eq_refl (conj (or_introl eq_refl) (conj eq_refl Hu)))|].
  exact (tmppath_tmp_target_no_doubled_tmp hdfs_default "luigi"
           "0123456789abcdef0123456789abcdef" "/tmp" true
           eq_refl (or_introl eq_refl) eq_refl Hu).
Defined.

Lemma tmp_dir_override_custom :
  tmp_dir (mkHdfs "hadoopcli" (Some "/custom")) = Some "/custom"
  /\ tmppath_base_dir (mkHdfs "hadoopcli" (Some "/custom"))
       (Some "hdfs://nn:8020/a/b/c") = Ok "/custom"
  /\ tmppath (mkHdfs "hadoopcli" (Some "/custom")) "luigi"
       "0123456789abcdef0123456789abcdef" (Some "hdfs://nn:8020/a/b/c") true
     = Ok "/custom/luigi/a/b/c-luigitemp-0123456789abcdef0123456789abcdef".
Proof.
  split; [reflexivity|].
  exact (tmp_dir_override_is_base_dir (mkHdfs "hadoopcli" (Some "/custom"))
           "luigi" "/custom" "0123456789abcdef0123456789abcdef"
           (Some "hdfs://nn:8020/a/b/c") true eq_refl).
Defined.

Lemma tmppath_distinct_tokens_luigi :
  (valid_target (Some "hdfs://nn:8020/a/b/c") = true
   /\ "0123456789abcdef0123456789abcdef"
      <> "fedcba9876543210fedcba9876543210")
  /\ exists r1 r2,
       tmppath hdfs_default "luigi" "0123456789abcdef0123456789abcdef"
         (Some "hdfs://nn:8020/a/b/c") true = Ok r1
       /\ tmppath hdfs_default "luigi" "fedcba9876543210fedcba9876543210"
            (Some "hdfs://nn:8020/a/b/c") true = Ok r2
       /\ r1 <> r2.
Proof.
  assert (Hne : "0123456789abcdef0123456789abcdef"
                <> "fedcba9876543210fedcba9876543210") by discriminate.
  split; [split; [reflexivity | exact Hne]|].
  exact (tmppath_distinct_tokens hdfs_default "luigi"
           (Some "hdfs://nn:8020/a/b/c") true _ _ eq_refl Hne).
Defined.

(** With the override [/custom/], the result does not begin with the base
    directory followed by a separator. *)
Lemma tmppath_base_dir_with_trailing_separator :
  Str.startswith "luigi" Str.sep = false
  /\ tmppath_base_dir (mkHdfs "hadoopcli" (Some "/custom/")) None
     = Ok "/custom/"
  /\ tmppath (mkHdfs "hadoopcli" (Some "/custom/")) "luigi"
       "0123456789abcdef0123456789abcdef" None true
     = Ok "/custom/luigi/luigitemp-0123456789abcdef0123456789abcdef"
  /\ Str.startswith
       "/custom/luigi/luigitemp-0123456789abcdef0123456789abcdef"
       ("/custom/" ++ Str.sep) = false.
Proof.
  split; [reflexivity|]. split; [reflexivity|].
  split; reflexivity.
Qed.

Lemma tmppath_under_base_dir_luigi :
  (Str.startswith "luigi" Str.sep = false
   /\ tmppath_base_dir hdfs_default (Some "hdfs://nn:8020/a/b/c")
      = Ok "hdfs://nn:8020/tmp"
   /\ tmppath hdfs_default "luigi" "0123456789abcdef0123456789abcdef"
        (Some "hdfs://nn:8020/a/b/c") true
      = Ok "hdfs://nn:8020/tmp/luigi/a/b/c-luigitemp-0123456789abcdef0123456789abcdef")
  /\ Str.startswith
       "hdfs://nn:8020/tmp/luigi/a/b/c-luigitemp-0123456789abcdef0123456789abcdef"
       ("hdfs://nn:8020/tmp" ++ Str.sep) = true.
Proof.
  split; [exact (conj eq_refl (conj eq_refl eq_refl))|].
  exact (proj2 (proj2 (tmppath_under_base_dir hdfs_default "luigi"
                         "0123456789abcdef0123456789abcdef"
                         (Some "hdfs://nn:8020/a/b/c") true
                         "hdfs://nn:8020/tmp" _ eq_refl eq_refl eq_refl))
           eq_refl).
Defined.

Lemma get_configured_hdfs_client_snakebite :
  (true = true /\ In "snakebite" snakebite_clients)
  /\ get_configured_hdfs_client true (mkHdfs "snakebite" None)
     = ("hadoopcli", [snakebite_warning])
  /\ get_configured_hdfs_client false (mkHdfs "snakebite" None)
     = ("snakebite", [])
  /\ get_configured_hdfs_client true (mkHdfs "webhdfs" None)
     = ("webhdfs", []).
Proof.
  assert (Hin : In "snakebite" snakebite_clients) by (left; reflexivity).
  assert (Hout : ~ In "webhdfs" snakebite_clients).
  { intros [E | [E | []]]; discriminate. }
  split; [split; [reflexivity | exact Hin]|]. split; [|split].
  - exact (proj1 (get_configured_hdfs_client_spec true
                    (mkHdfs "snakebite" None)) eq_refl Hin).
  - exact (proj2 (get_configured_hdfs_client_spec false
                    (mkHdfs "snakebite" None)) (or_introl eq_refl)).
  - exact (proj2 (get_configured_hdfs_client_spec true
                    (mkHdfs "webhdfs" None)) (or_intror Hout)).
Defined.

Lemma load_hadoop_cmd_tokens_hadoop :
  (all_space "   " = true
   /\ token "hadoop" /\ token "--config"
   /\ "hadoop   --config" = "hadoop" ++ "   " ++ "--config")
  /\ load_hadoop_cmd (mkHadoopcli "   " "cdh4") = []
  /\ load_hadoop_cmd (mkHadoopcli "hadoop   --config" "cdh4")
     = ["hadoop"; "--config"].
Proof.
  assert (Hu : token "hadoop") by (split; [discriminate | reflexivity]).
  assert (Hv : token "--config") by (split; [discriminate | reflexivity]).
  assert (Hne : "   " <> "") by discriminate.
  split; [exact (conj eq_refl (conj Hu (conj Hv eq_refl)))|]. split.
  - exact (proj1 (proj2 (load_hadoop_cmd_tokens (mkHadoopcli "   " "cdh4")))
             eq_refl).
  - exact (proj2 (proj2 (load_hadoop_cmd_tokens
                           (mkHadoopcli "hadoop   --config" "cdh4")))
             "hadoop" "   " "--config" Hu eq_refl Hne Hv eq_refl).
Defined.

End Instances.

(** ** The configured hadoop version *)

Section Version.

Lemma isupper_lowered (c : ascii) :
  Str.isupper c = true ->
  Str.isupper (ascii_of_nat (nat_of_ascii c + 32)) = false.
Proof.
  destruct c as [b0 b1 b2 b3 b4 b5 b6 b7].
  destruct b0, b1, b2, b3, b4, b5, b6, b7;
    (reflexivity || discriminate).
Qed.

Lemma str_lower_no_upper (s : string) : no_upper (Str.str_lower s) = true.
Proof.
  induction s as [|c s IH]; [reflexivity|].
  cbn [Str.str_lower no_upper]. rewrite IH, andb_true_r.
  destruct (Str.isupper c) eqn:E.
  - now rewrite isupper_lowered.
  - now rewrite E.
Qed.

Lemma str_lower_fixed (s : string) :
  no_upper s = true -> Str.str_lower s = s.
Proof.
  induction s as [|c s IH]; [reflexivity|].
  cbn [Str.str_lower no_upper]. intros H.
  apply andb_true_iff in H as [Hc Hs].
  apply negb_true_iff in Hc. now rewrite Hc, (IH Hs).
Qed.

Lemma str_lower_length (s : string) :
  String.length (Str.str_lower s) = String.length s.
Proof. induction s as [|c s IH]; simpl; congruence. Qed.


End Version.

(** ** More on the configured client *)

Section ClientMore.

Lemma hadoopcli_not_snakebite : ~ In "hadoopcli" snakebite_clients.
Proof. intros [E | [E | []]]; discriminate. Qed.

Lemma client_cases (PY3 : bool) (config : hdfs) :
  (PY3 = true /\ In (client config) snakebite_clients
   /\ get_configured_hdfs_client PY3 config
      = ("hadoopcli", [snakebite_warning]))
  \/ ((PY3 = false \/ ~ In (client config) snakebite_clients)
      /\ get_configured_hdfs_client PY3 config = (client config, [])).
Proof.
  unfold get_configured_hdfs_client.
  set (l := ["snakebite_with_hadoopcli_fallback"; "snakebite"]).
  assert (Hl : In (client config) l -> In (client config) snakebite_clients).
  { unfold l, snakebite_clients. simpl. tauto. }
  destruct PY3; [|right; split; [now left | reflexivity]].
  destruct (Str.in_list (client config) l) eqn:E.
  - left. apply in_list_In in E. auto.
  - right. split; [|reflexivity]. right. intros H.
    assert (H' : In (client config) l).
    { unfold l. unfold snakebite_clients in H. simpl in *. tauto. }
    apply in_list_In in H'. congruence.
Qed.

(** X2.  Under Python 3 the client returned is never one of the snakebite
    clients; and under either Python, resolving a configuration whose client
    is an already resolved one returns it again, with no warning. *)
Theorem get_configured_hdfs_client_settled (PY3 : bool) (config : hdfs) :
  (PY3 = true ->
   ~ In (fst (get_configured_hdfs_client PY3 config)) snakebite_clients)
  /\ get_configured_hdfs_client PY3
       (mkHdfs (fst (get_configured_hdfs_client PY3 config))
          (tmp_dir config))
     = (fst (get_configured_hdfs_client PY3 config), []).
Proof.
  destruct (client_cases PY3 config) as [(Hp & Hin & ->) | (Hc & ->)];
    cbn [fst].
  - split; [intros _; apply hadoopcli_not_snakebite|].
    destruct (client_cases PY3 (mkHdfs "hadoopcli" (tmp_dir config)))
      as [(_ & Hin' & _) | (_ & ->)]; [|reflexivity].
    cbn [client] in Hin'. now apply hadoopcli_not_snakebite in Hin'.
  - split.
    + intros ->. destruct Hc as [Hc | Hc]; [discriminate | exact Hc].
    + destruct (client_cases PY3 (mkHdfs (client config) (tmp_dir config)))
        as [(Hp & Hin' & _) | (_ & ->)]; [|reflexivity].
      cbn [client] in Hin'.
      destruct Hc as [-> | Hc]; [discriminate | contradiction].
Qed.

(** X3.  A warning is emitted exactly when the client returned is not the
    configured one, and never more than one. *)
Theorem get_configured_hdfs_client_warns_iff_replaced (PY3 : bool)
    (config : hdfs) :
  (snd (get_configured_hdfs_client PY3 config) <> []
   <-> fst (get_configured_hdfs_client PY3 config) <> client config)
  /\ List.length (snd (get_configured_hdfs_client PY3 config)) <= 1.
Proof.
  destruct (client_cases PY3 config) as [(Hp & Hin & ->) | (Hc & ->)];
    cbn [fst snd List.length].
  - split; [|lia]. split; [|discriminate].
    intros _ E. rewrite <- E in Hin.
    now apply hadoopcli_not_snakebite in Hin.
  - split; [|lia]. split; intros H; now contradiction H.
Qed.

End ClientMore.

(** ** More on the hadoop command *)

Section CommandMore.

Lemma concat_empty_cons (x : string) (xs : list string) :
  String.concat "" (x :: xs) = x ++ String.concat "" xs.
Proof.
  destruct xs as [|y ys]; cbn [String.concat].
  - now rewrite append_nil_r.
  - reflexivity.
Qed.

Lemma split_from_without_space (s word : string) :
  String.concat "" (Str.split_from word s) = word ++ without_space s.
Proof.
  revert word. induction s as [|c s IH]; intros word.
  - cbn [Str.split_from without_space]. rewrite append_nil_r.
    now destruct word.
  - cbn [Str.split_from without_space]. destruct (Str.isspace c).
    + destruct word as [|d word]; [apply IH|].
      now rewrite concat_empty_cons, IH.
    + rewrite IH, append_assoc. reflexivity.
Qed.

Lemma split_from_leading (ws s : string) :
  all_space ws = true ->
  Str.split_from "" (ws ++ s) = Str.split_from "" s.
Proof.
  induction ws as [|c ws IH]; [reflexivity|].
  cbn [all_space]. intros H. apply andb_true_iff in H as [Hc Hws].
  change (String c ws ++ s) with (String c (ws ++ s)).
  cbn [Str.split_from]. rewrite Hc. now apply IH.
Qed.

Lemma split_from_only_space (ws word : string) :
  all_space ws = true ->
  Str.split_from word ws = Str.split_from word "".
Proof.
  intros Hws. destruct ws as [|c ws]; [reflexivity|].
  destruct word as [|d word].
  - now apply split_from_all_space.
  - rewrite <- (append_nil_r (String c ws)).
    now rewrite split_from_space by (assumption || discriminate).
Qed.

Lemma split_from_trailing (a ws word : string) :
  all_space ws = true ->
  Str.split_from word (a ++ ws) = Str.split_from word a.
Proof.
  intros Hws. revert word. induction a as [|c a IH]; intros word.
  - now apply split_from_only_space.
  - change (String c a ++ ws) with (String c (a ++ ws)).
    cbn [Str.split_from]. destruct (Str.isspace c).
    + destruct word; now rewrite IH.
    + apply IH.
Qed.

Lemma split_from_app (a ws b word : string) :
  all_space ws = true -> ws <> "" ->
  Str.split_from word (a ++ ws ++ b)
  = (Str.split_from word a ++ Str.split_from "" b)%list.
Proof.
  intros Hws Hne. revert word. induction a as [|c a IH]; intros word.
  - cbn [append]. destruct word as [|d word].
    + now apply split_from_leading.
    + now rewrite split_from_space by (assumption || discriminate).
  - change (String c a ++ ws ++ b) with (String c (a ++ ws ++ b)).
    cbn [Str.split_from]. destruct (Str.isspace c).
    + destruct word; now rewrite IH.
    + apply IH.
Qed.

Lemma split_token (t : string) : token t -> Str.split t = [t].
Proof.
  intros [Hne Hs]. unfold Str.split.
  rewrite <- (append_nil_r t) at 1.
  rewrite split_from_word by exact Hs. cbn [append Str.split_from].
  destruct t; [congruence | reflexivity].
Qed.

Lemma split_join (l : list string) :
  Forall token l -> Str.split (Str.join " " l) = l.
Proof.
  unfold Str.join. induction l as [|t l IH]; [reflexivity|].
  intros H. inversion H as [|? ? Ht Hl]; subst.
  destruct l as [|t' l].
  - now apply split_token.
  - change (String.concat " " (t :: t' :: l))
      with (t ++ " " ++ String.concat " " (t' :: l)).
    unfold Str.split. rewrite split_from_app by (reflexivity || discriminate).
    fold (Str.split t). fold (Str.split (String.concat " " (t' :: l))).
    rewrite (split_token t Ht), (IH Hl). reflexivity.
Qed.

(** X4.  Splitting the command keeps every character that is not
    whitespace, in order, and adds none: the tokens put end to end are the
    command with its whitespace taken out. *)
Theorem load_hadoop_cmd_keeps_characters (cfg : hadoopcli) :
  Str.join "" (load_hadoop_cmd cfg) = without_space (command cfg).
Proof.
  unfold load_hadoop_cmd, Str.join, Str.split.
  now rewrite split_from_without_space.
Qed.

(** X5.  Tokens joined with single spaces and configured as the command are
    read back as the same tokens; so the tokens of a command, joined again,
    load as the same list. *)
Theorem load_hadoop_cmd_join_round_trip (l : list string) (v : string) :
  (Forall token l ->
   load_hadoop_cmd (mkHadoopcli (Str.join " " l) v) = l)
  /\ (forall cfg : hadoopcli,
        load_hadoop_cmd
          (mkHadoopcli (Str.join " " (load_hadoop_cmd cfg)) v)
        = load_hadoop_cmd cfg).
Proof.
  unfold load_hadoop_cmd. cbn [command]. split.
  - apply split_join.
  - intros cfg. apply split_join. now apply split_from_tokens.
Qed.

(** X6.  Whitespace around the command is ignored, and a command made of
    two parts with whitespace between them loads as the tokens of the first
    part followed by the tokens of the second. *)
Theorem load_hadoop_cmd_concatenation (a ws b v : string) :
  all_space ws = true ->
  load_hadoop_cmd (mkHadoopcli (ws ++ a) v)
  = load_hadoop_cmd (mkHadoopcli a v)
  /\ load_hadoop_cmd (mkHadoopcli (a ++ ws) v)
     = load_hadoop_cmd (mkHadoopcli a v)
  /\ (ws <> "" ->
      load_hadoop_cmd (mkHadoopcli (a ++ ws ++ b) v)
      = (load_hadoop_cmd (mkHadoopcli a v)
         ++ load_hadoop_cmd (mkHadoopcli b v))%list).
Proof.
  intros Hws. unfold load_hadoop_cmd, Str.split. cbn [command].
  split; [now apply split_from_leading|].
  split; [now apply split_from_trailing|].
  intros Hne. now apply split_from_app.
Qed.

End CommandMore.

(** ** The random suffix *)

Section Suffix.

Lemma segments_nonempty (s : string) : segments s <> [].
Proof.
  unfold segments. destruct s as [|c s]; [discriminate|].
  cbn [Str.split_on]. destruct (Ascii.eqb c "/"); [discriminate|].
  destruct (Str.split_on "/" s); discriminate.
Qed.

Lemma segments_snoc (a x : string) :
  Str.contains x "/" = false ->
  segments (a ++ x)
  = (removelast (segments a) ++ [(last (segments a) "" ++ x)%string])%list.
Proof.
  intros Hx. induction a as [|c a IH].
  - cbn [append]. now rewrite segments_no_sep.
  - change (String c a ++ x) with (String c (a ++ x)).
    pose proof (segments_nonempty a) as Hne.
    unfold segments in *. cbn [Str.split_on].
    rewrite IH. clear IH.
    destruct (Str.split_on "/" a) as [|w ws]; [congruence|]. clear Hne.
    destruct (Ascii.eqb c "/").
    + reflexivity.
    + destruct ws as [|w' ws]; reflexivity.
Qed.

Lemma basename_app (a x : string) :
  Str.contains x "/" = false -> basename (a ++ x) = basename a ++ x.
Proof.
  intros Hx. unfold basename. rewrite segments_snoc by exact Hx.
  apply last_last.
Qed.

Lemma addon_no_sep (hex : string) :
  Str.contains hex "/" = false -> Str.contains (addon hex) "/" = false.
Proof. intros H. exact H. Qed.

Lemma tmppath_front (config : hdfs) (user hex : string)
    (path : option string) (incl : bool) (r : string) :
  tmppath config user hex path incl = Ok r ->
  exists front, r = front ++ addon hex.
Proof.
  unfold tmppath.
  destruct (tmppath_base_dir config path) as [b|e]; [|discriminate].
  destruct (tmppath_subdir path) as [s|e]; [|discriminate].
  cbn [bind]. intros [= <-].
  exists (posixpath.join b (if incl then posixpath.join user s else s)).
  apply join_app. now right.
Qed.

(** X7.  Every path that [tmppath] returns ends with [luigitemp-] and the
    random token; since a [uuid4().hex] holds no separator, that suffix is
    the end of the last segment of the path. *)
Theorem tmppath_ends_with_addon (config : hdfs) (user hex : string)
    (path : option string) (include_unix_username : bool) (r : string) :
  tmppath config user hex path include_unix_username = Ok r ->
  (exists front, r = front ++ addon hex)
  /\ (uuid_hex hex = true ->
      exists stem, basename r = stem ++ addon hex).
Proof.
  intros Hr. destruct (tmppath_front _ _ _ _ _ _ Hr) as [front ->].
  split; [now exists front|].
  intros Hh. exists (basename front).
  apply basename_app, addon_no_sep, uuid_hex_no_sep, Hh.
Qed.

End Suffix.

(** ** Layout of the result *)

Section Layout.

Lemma join_user (user subdir : string) :
  user_name user ->
  Str.startswith subdir Str.sep = false ->
  posixpath.join user subdir = user ++ Str.sep ++ subdir.
Proof.
  intros (Hne & _ & Hend) Hs. rewrite join_relative by exact Hs.
  apply String.eqb_neq in Hne. now rewrite Hne, Hend.
Qed.

Lemma tmppath_layout (config : hdfs) (user hex : string)
    (path : option string) (base_dir subdir : string) :
  tmppath_base_dir config path = Ok base_dir ->
  tmppath_subdir path = Ok subdir ->
  String.eqb base_dir "" || Str.endswith base_dir Str.sep = false ->
  tmppath config user hex path false
  = Ok (base_dir ++ "/" ++ subdir ++ addon hex)
  /\ (user_name user ->
      tmppath config user hex path true
      = Ok (base_dir ++ "/" ++ user ++ "/" ++ subdir ++ addon hex)).
Proof.
  intros Hb Hs Hbase.
  pose proof (tmppath_subdir_relative _ _ Hs) as Hrel.
  unfold tmppath. rewrite Hb, Hs. cbn [bind]. split.
  - rewrite join_relative, Hbase; [reflexivity|].
    exact (qualified_subdir_relative "" subdir hex false eq_refl Hrel).
  - intros Hu. pose proof Hu as (_ & Hstart & _).
    rewrite join_relative, Hbase.
    + rewrite join_user by assumption. now rewrite !append_assoc.
    + exact (qualified_subdir_relative user subdir hex true Hstart Hrel).
Qed.

Lemma default_base_dir_no_sep (config : hdfs) (path : option string)
    (base_dir : string) :
  tmp_dir config = None ->
  tmppath_base_dir config path = Ok base_dir ->
  String.eqb base_dir "" || Str.endswith base_dir Str.sep = false.
Proof.
  intros Hc Hb.
  destruct (default_base_dir_ends_in_tmp _ _ _ Hc Hb) as [front ->].
  rewrite eqb_app_nonempty by discriminate.
  now rewrite endswith_sep_app by discriminate.
Qed.

(** X8.  When the base directory is not empty and does not end in a
    separator (always so without an override), the result is the base
    directory, a separator, the user name and a separator if the user name
    is included, then the subdirectory and the random suffix. *)
Theorem tmppath_result_layout (config : hdfs) (user hex : string)
    (path : option string) (base_dir subdir : string) :
  tmppath_base_dir config path = Ok base_dir ->
  tmppath_subdir path = Ok subdir ->
  tmp_dir config = None
  \/ String.eqb base_dir "" || Str.endswith base_dir Str.sep = false ->
  tmppath config user hex path false
  = Ok (base_dir ++ "/" ++ subdir ++ addon hex)
  /\ (user_name user ->
      tmppath config user hex path true
      = Ok (base_dir ++ "/" ++ user ++ "/" ++ subdir ++ addon hex)).
Proof.
  intros Hb Hs H. apply tmppath_layout; try assumption.
  destruct H as [Hc | H]; [|exact H].
  now apply (default_base_dir_no_sep config path).
Qed.

End Layout.

(** ** When [urlparse] raises *)

Section UrlErrors.

Ltac split_pairs :=
  repeat match goal with
         | |- context [let (_, _) := ?x in _] => destruct x
         end.

Lemma urlsplit_rest_raise (scheme url : string) (e : exn) :
  urllib.urlsplit_rest scheme url = Raise e ->
  e = ValueError "Invalid IPv6 URL".
Proof.
  unfold urllib.urlsplit_rest.
  destruct (String.eqb (Str.take 2 url) "//").
  - destruct (urllib._splitnetloc url 2) as [n u].
    destruct ((Str.contains n "[" && negb (Str.contains n "]"))
              || (Str.contains n "]" && negb (Str.contains n "[")));
      cbn [bind].
    + now intros [= <-].
    + split_pairs. discriminate.
  - cbn [bind]. split_pairs. discriminate.
Qed.

Lemma urlsplit_raise (url : string) (e : exn) :
  urllib.urlsplit url = Raise e -> e = ValueError "Invalid IPv6 URL".
Proof.
  unfold urllib.urlsplit.
  destruct (Str.find url ":") as [[|i]|];
    repeat match goal with
           | |- context [if ?b then _ else _] => destruct b
           end;
    apply urlsplit_rest_raise.
Qed.

Lemma urlparse_raise (url : string) (e : exn) :
  urllib.urlparse url = Raise e -> e = ValueError "Invalid IPv6 URL".
Proof.
  unfold urllib.urlparse.
  destruct (urllib.urlsplit url) as [r|e'] eqn:E; cbn [bind].
  - split_pairs. discriminate.
  - intros [= <-]. now apply (urlsplit_raise url).
Qed.

Lemma contains_take (n : nat) (s : string) (c : ascii) :
  Str.contains (Str.take n s) c = true -> Str.contains s c = true.
Proof.
  revert s. induction n as [|n IH]; intros [|d s]; cbn; try discriminate.
  intros H. apply orb_true_iff in H as [H | H].
  - now rewrite H.
  - rewrite (IH _ H). apply orb_true_r.
Qed.

Lemma contains_drop (n : nat) (s : string) (c : ascii) :
  Str.contains (Str.drop n s) c = true -> Str.contains s c = true.
Proof.
  revert s. induction n as [|n IH]; intros [|d s]; cbn; try easy.
  intros H. rewrite (IH _ H). apply orb_true_r.
Qed.

Lemma splitnetloc_contains (url : string) (start : nat) (c : ascii) :
  Str.contains (fst (urllib._splitnetloc url start)) c = true ->
  Str.contains url c = true.
Proof.
  unfold urllib._splitnetloc, Str.slice. cbn [fst].
  intros H. eapply contains_drop, contains_take, H.
Qed.

Lemma urlsplit_rest_no_brackets (scheme url : string) :
  Str.contains url "[" = false ->
  Str.contains url "]" = false ->
  exists r, urllib.urlsplit_rest scheme url = Ok r.
Proof.
  intros Hl Hr. unfold urllib.urlsplit_rest.
  destruct (String.eqb (Str.take 2 url) "//").
  - pose proof (splitnetloc_contains url 2 "[") as Al.
    pose proof (splitnetloc_contains url 2 "]") as Ar.
    destruct (urllib._splitnetloc url 2) as [n u]. cbn [fst] in Al, Ar.
    destruct (Str.contains n "[") eqn:El;
      [rewrite Al in Hl by reflexivity; discriminate|].
    destruct (Str.contains n "]") eqn:Er;
      [rewrite Ar in Hr by reflexivity; discriminate|].
    cbn [andb orb bind]. split_pairs. eauto.
  - cbn [bind]. split_pairs. eauto.
Qed.

Lemma contains_false_drop (n : nat) (s : string) (c : ascii) :
  Str.contains s c = false -> Str.contains (Str.drop n s) c = false.
Proof.
  intros H. destruct (Str.contains (Str.drop n s) c) eqn:E;
    [|reflexivity].
  apply contains_drop in E. congruence.
Qed.

Lemma urlparse_no_brackets (url : string) :
  Str.contains url "[" = false ->
  Str.contains url "]" = false ->
  exists r, urllib.urlparse url = Ok r.
Proof.
  intros Hl Hr.
  assert (Hs : exists r, urllib.urlsplit url = Ok r).
  { unfold urllib.urlsplit.
    destruct (Str.find url ":") as [[|i]|];
      repeat match goal with
             | |- context [if ?b then _ else _] => destruct b
             end;
      apply urlsplit_rest_no_brackets;
      auto using contains_false_drop. }
  destruct Hs as [r Hs]. unfold urllib.urlparse. rewrite Hs. cbn [bind].
  split_pairs. eauto.
Qed.

(** A path with one leading separator has no scheme and no network
    location, and without [#] and [?] it is its own path component. *)
Lemma urlsplit_bare (q : string) :
  Str.startswith q Str.sep = false ->
  exists r,
    urllib.urlsplit (String "/" q) = Ok r
    /\ urllib.s_scheme r = ""
    /\ urllib.s_netloc r = ""
    /\ (Str.contains q "#" = false -> Str.contains q "?" = false ->
        urllib.s_path r = String "/" q).
Proof.
  intros Hq.
  assert (Hrest : urllib.urlsplit (String "/" q)
                  = urllib.urlsplit_rest "" (String "/" q)).
  { unfold urllib.urlsplit. cbn [Str.find].
    change (Ascii.eqb "/" ":") with false. cbv iota.
    destruct (Str.find q ":") as [i|]; [|reflexivity].
    cbn [Str.take].
    change (String.eqb (String "/" (Str.take i q)) "http") with false.
    cbv iota. cbn [urllib.all_in].
    change (Str.contains urllib.scheme_chars "/") with false.
    reflexivity. }
  rewrite Hrest. unfold urllib.urlsplit_rest.
  assert (Hnet : String.eqb (Str.take 2 (String "/" q)) "//" = false).
  { destruct q as [|d q]; [reflexivity|].
    rewrite startswith_sep_cons in Hq. cbn [Str.take].
    apply String.eqb_neq. intros [= ->]. discriminate. }
  rewrite Hnet. cbn [bind]. cbv beta iota.
  assert (Cf : Str.contains (String "/" q) "#" = Str.contains q "#")
    by reflexivity.
  assert (Cq : Str.contains (String "/" q) "?" = Str.contains q "?")
    by reflexivity.
  rewrite Cf. destruct (Str.contains q "#") eqn:Ef.
  - destruct (Str.split1 (String "/" q) "#") as [u f].
    destruct (if Str.contains u "?" then Str.split1 u "?" else (u, ""))
      as [u' qy].
    eexists. do 3 (split; [reflexivity|]). intros; congruence.
  - cbv beta iota. rewrite Cq. destruct (Str.contains q "?") eqn:Eq.
    + destruct (Str.split1 (String "/" q) "?") as [u' qy].
      eexists. do 3 (split; [reflexivity|]). intros; congruence.
    + eexists. do 3 (split; [reflexivity|]). reflexivity.
Qed.

Lemma urlparse_bare (q : string) :
  Str.startswith q Str.sep = false ->
  exists r,
    urllib.urlparse (String "/" q) = Ok r
    /\ urllib.scheme r = ""
    /\ urllib.netloc r = ""
    /\ (Str.contains q "#" = false -> Str.contains q "?" = false ->
        Str.contains q ";" = false ->
        urllib.path r = String "/" q).
Proof.
  intros Hq. destruct (urlsplit_bare q Hq) as (r & Hr & Hs & Hn & Hp).
  unfold urllib.urlparse. rewrite Hr. cbn [bind]. rewrite Hs.
  destruct (Str.contains (urllib.s_path r) ";") eqn:E.
  - cbn [Str.in_list existsb String.eqb orb andb].
    destruct (urllib._splitparams (urllib.s_path r)) as [u p].
    eexists. split; [reflexivity|]. split; [reflexivity|].
    split; [exact Hn|].
    intros Hf Hqy Hsc. rewrite (Hp Hf Hqy) in E.
    cbn [Str.contains] in E. rewrite Hsc in E. discriminate.
  - rewrite andb_false_r. eexists. split; [reflexivity|].
    split; [reflexivity|]. split; [exact Hn|].
    intros Hf Hqy _. now apply Hp.
Qed.

End UrlErrors.

(** ** When [tmppath] raises and when it returns *)

Section TmppathErrors.

Lemma startswith_inv (s p : string) (c : ascii) :
  Str.startswith s (String c p) = true ->
  exists s', s = String c s' /\ Str.startswith s' p = true.
Proof.
  destruct s as [|d s]; cbn [Str.startswith]; [discriminate|].
  intros H. apply andb_true_iff in H as [Hc Hs].
  apply Ascii.eqb_eq in Hc. subst. eauto.
Qed.

Lemma under_tmp_bare (p : string) :
  Str.startswith p (temp_dir ++ "/") = true ->
  exists rest, p = "/tmp/" ++ rest.
Proof.
  change (temp_dir ++ "/") with "/tmp/". intros H.
  do 5 (apply startswith_inv in H as (? & -> & H)).
  eexists. reflexivity.
Qed.

Lemma one_separator (p : string) :
  Str.startswith p "/" = true -> Str.startswith p "//" = false ->
  exists q, p = String "/" q /\ Str.startswith q Str.sep = false.
Proof.
  intros H1 H2. apply startswith_inv in H1 as (q & -> & _).
  exists q. split; [reflexivity|].
  cbn [Str.startswith] in H2. exact H2.
Qed.

Lemma tmppath_ok_of_steps (config : hdfs) (user hex : string)
    (path : option string) (incl : bool) :
  valid_target path = true ->
  exists r, tmppath config user hex path incl = Ok r.
Proof.
  intros Hv.
  destruct (tmppath_steps_total config path Hv) as (b & s & Hb & Hs).
  unfold tmppath. rewrite Hb, Hs. cbn [bind]. eauto.
Qed.

Lemma tmppath_raise_urlparse (config : hdfs) (user hex p : string)
    (incl : bool) (e : exn) :
  tmppath config user hex (Some p) incl = Raise e <->
  urllib.urlparse p = Raise e.
Proof.
  unfold tmppath, tmppath_base_dir, tmppath_subdir. split.
  - destruct (Str.startswith p (temp_dir ++ "/")) eqn:Et.
    + destruct (under_tmp_bare p Et) as [rest ->].
      destruct (urlparse_bare ("tmp/" ++ rest) eq_refl) as (r & Hr & _).
      change ("/tmp/" ++ rest) with (String "/" ("tmp/" ++ rest)).
      rewrite Hr. destruct (tmp_dir config); cbn [bind]; discriminate.
    + destruct (urllib.urlparse p) as [r|e']; [|
        destruct (tmp_dir config); cbn [bind]; intros [= <-]; reflexivity].
      destruct (tmp_dir config); cbn [bind]; discriminate.
  - intros Hp. rewrite Hp.
    destruct (Str.startswith p (temp_dir ++ "/")) eqn:Et.
    + destruct (under_tmp_bare p Et) as [rest ->].
      destruct (urlparse_bare ("tmp/" ++ rest) eq_refl) as (r & Hr & _).
      change ("/tmp/" ++ rest) with (String "/" ("tmp/" ++ rest)) in Hp.
      congruence.
    + destruct (tmp_dir config); reflexivity.
Qed.



End TmppathErrors.

(** ** Targets that are bare paths *)

Section BareTargets.

Lemma lstrip_relative (q : string) :
  Str.startswith q Str.sep = false -> Str.lstrip q "/" = q.
Proof.
  destruct q as [|c q]; [reflexivity|].
  rewrite startswith_sep_cons. intros H.
  cbn [Str.lstrip Str.contains]. rewrite Ascii.eqb_sym, H. reflexivity.
Qed.

Lemma bare_base_dir (config : hdfs) (q : string) :
  tmp_dir config = None ->
  Str.startswith q Str.sep = false ->
  tmppath_base_dir config (Some (String "/" q)) = Ok "/tmp".
Proof.
  intros Hc Hq. unfold tmppath_base_dir. rewrite Hc.
  destruct (urlparse_bare q Hq) as (r & Hr & Hs & Hn & _).
  rewrite Hr. cbn [bind]. rewrite Hs, Hn. reflexivity.
Qed.

Lemma bare_subdir (q : string) :
  Str.startswith q Str.sep = false ->
  Str.startswith (String "/" q) (temp_dir ++ "/") = false ->
  Str.contains q "#" = false ->
  Str.contains q "?" = false ->
  Str.contains q ";" = false ->
  tmppath_subdir (Some (String "/" q)) = Ok (q ++ "-").
Proof.
  intros Hq Ht Hf Hqy Hs. unfold tmppath_subdir. rewrite Ht.
  destruct (urlparse_bare q Hq) as (r & -> & _ & _ & Hp).
  cbn [bind]. rewrite (Hp Hf Hqy Hs).
  cbn [Str.lstrip Str.contains Ascii.eqb Bool.eqb orb].
  now rewrite lstrip_relative.
Qed.


(** X12.  For every target under [/tmp/], whatever follows, with no
    override: the base directory is [/tmp] and the result is [/tmp/], the
    user name and a separator when it is included, what follows [/tmp/]
    in the target without its leading separators, ["-"] and the random
    suffix. *)
Theorem tmppath_target_under_tmp (config : hdfs) (user hex rest : string) :
  tmp_dir config = None ->
  tmppath config user hex (Some ("/tmp/" ++ rest)) false
  = Ok ("/tmp/" ++ Str.lstrip rest "/" ++ "-" ++ addon hex)
  /\ (user_name user ->
      tmppath config user hex (Some ("/tmp/" ++ rest)) true
      = Ok ("/tmp/" ++ user ++ "/" ++ Str.lstrip rest "/" ++ "-"
            ++ addon hex)).
Proof.
  intros Hc.
  assert (Hb : tmppath_base_dir config (Some ("/tmp/" ++ rest))
               = Ok "/tmp")
    by exact (bare_base_dir config ("tmp/" ++ rest) Hc eq_refl).
  assert (Hsub : tmppath_subdir (Some ("/tmp/" ++ rest))
                 = Ok (Str.lstrip rest "/" ++ "-")) by reflexivity.
  destruct (tmppath_layout config user hex _ _ _ Hb Hsub eq_refl)
    as [Hfalse Htrue].
  split.
  - rewrite Hfalse. now rewrite !append_assoc.
  - intros Hu. rewrite (Htrue Hu). now rewrite !append_assoc.
Qed.

End BareTargets.

(** ** Targets that are URLs *)

Section UrlTargets.

Lemma contains_app (a b : string) (c : ascii) :
  Str.contains (a ++ b) c = Str.contains a c || Str.contains b c.
Proof.
  induction a as [|d a IH]; [reflexivity|].
  cbn [append Str.contains]. now rewrite IH, orb_assoc.
Qed.

Lemma find_absent (s : string) (c : ascii) :
  Str.contains s c = false -> Str.find s c = None.
Proof.
  induction s as [|d s IH]; [reflexivity|].
  cbn [Str.contains Str.find]. intros H.
  apply orb_false_iff in H as [Hd Hs]. now rewrite Hd, (IH Hs).
Qed.

Lemma find_first (a t : string) (c : ascii) :
  Str.contains a c = false ->
  Str.find (a ++ String c t) c = Some (String.length a).
Proof.
  induction a as [|d a IH]; cbn [append Str.contains Str.find String.length].
  - intros _. now rewrite Ascii.eqb_refl.
  - intros H. apply orb_false_iff in H as [Hd Ha].
    now rewrite Hd, (IH Ha).
Qed.

Lemma take_app (a b : string) : Str.take (String.length a) (a ++ b) = a.
Proof. induction a as [|d a IH]; [now destruct b|]. cbn. now rewrite IH. Qed.

Lemma drop_app (a b : string) : Str.drop (String.length a) (a ++ b) = b.
Proof. induction a as [|d a IH]; [now destruct b|]. exact IH. Qed.

Lemma drop_app_cons (a t : string) (c : ascii) :
  Str.drop (S (String.length a)) (a ++ String c t) = t.
Proof. induction a as [|d a IH]; [reflexivity|]. exact IH. Qed.

Lemma all_in_contains (s chars : string) (c : ascii) :
  urllib.all_in s chars = true ->
  Str.contains chars c = false ->
  Str.contains s c = false.
Proof.
  intros Hs Hc. induction s as [|d s IH]; [reflexivity|].
  cbn [urllib.all_in Str.contains] in *.
  apply andb_true_iff in Hs as [Hd Hs]. rewrite (IH Hs), orb_false_r.
  destruct (Ascii.eqb d c) eqn:E; [|reflexivity].
  apply Ascii.eqb_eq in E. congruence.
Qed.

Lemma splitnetloc_netloc (n rest : string) :
  none_of n "/?#" = true ->
  none_of rest "?#" = true ->
  urllib._splitnetloc ("//" ++ n ++ "/" ++ rest) 2 = (n, "/" ++ rest).
Proof.
  cbn [none_of]. rewrite !andb_true_r, !andb_true_iff, !negb_true_iff.
  intros (Hs & Hq & Hf) (Hrq & Hrf).
  set (url := "//" ++ n ++ "/" ++ rest).
  assert (Hfind : forall c,
             Str.find_from url c 2
             = match Str.find (n ++ "/" ++ rest) c with
               | Some i => Some (2 + i)
               | None => None
               end) by reflexivity.
  assert (Hlen : String.length url = 2 + String.length n
                                     + S (String.length rest)).
  { subst url. cbn [append String.length].
    rewrite length_append. cbn [String.length]. lia. }
  assert (Habsent : forall c,
             Str.contains n c = false -> Str.contains rest c = false ->
             Ascii.eqb "/" c = false ->
             Str.find_from url c 2 = None).
  { intros c Hn Hr Hc. rewrite Hfind, find_absent; [reflexivity|].
    rewrite contains_app, Hn. cbn [Str.contains append orb].
    now rewrite Hc, Hr. }
  unfold urllib._splitnetloc. cbn [fold_left].
  rewrite (Habsent "?"%char Hq Hrq eq_refl),
          (Habsent "#"%char Hf Hrf eq_refl).
  rewrite Hfind. change (n ++ "/" ++ rest) with (n ++ String "/" rest).
  rewrite (find_first n rest "/" Hs).
  replace (Nat.min (String.length url) (2 + String.length n))
    with (2 + String.length n) by lia.
  unfold Str.slice.
  replace (2 + String.length n - 2) with (String.length n) by lia.
  subst url. cbn [append Str.drop Nat.add].
  now rewrite take_app, drop_app.
Qed.

Lemma urlsplit_rest_url (sch n rest : string) :
  none_of n "/?#[]" = true ->
  none_of rest "?#" = true ->
  urllib.urlsplit_rest sch ("//" ++ n ++ "/" ++ rest)
  = Ok (urllib.mkSplitResult sch n ("/" ++ rest) "" "").
Proof.
  intros Hn Hr.
  assert (Hn' : none_of n "/?#" = true /\ Str.contains n "[" = false
                /\ Str.contains n "]" = false).
  { cbn [none_of] in *.
    rewrite !andb_true_r, !andb_true_iff, !negb_true_iff in *. tauto. }
  destruct Hn' as (Hn3 & Hl & Hrb).
  unfold urllib.urlsplit_rest.
  change (Str.take 2 ("//" ++ n ++ "/" ++ rest)) with "//".
  change (String.eqb "//" "//") with true. cbv iota.
  rewrite (splitnetloc_netloc n rest Hn3 Hr), Hl, Hrb.
  cbn [andb orb bind]. cbv beta iota.
  cbn [none_of] in Hr.
  rewrite !andb_true_r, !andb_true_iff, !negb_true_iff in Hr.
  destruct Hr as [Hq Hf].
  change (Str.contains ("/" ++ rest) "#") with (Str.contains rest "#").
  rewrite Hf. cbv beta iota.
  change (Str.contains ("/" ++ rest) "?") with (Str.contains rest "?").
  now rewrite Hq.
Qed.

Lemma urlsplit_url (s n rest : string) :
  s <> "" ->
  urllib.all_in s urllib.scheme_chars = true ->
  none_of n "/?#[]" = true ->
  none_of rest "?#" = true ->
  urllib.urlsplit (s ++ "://" ++ n ++ "/" ++ rest)
  = Ok (urllib.mkSplitResult (Str.lower s) n ("/" ++ rest) "" "").
Proof.
  intros Hne Hs Hn Hr.
  pose proof (all_in_contains s _ ":" Hs eq_refl) as Hcolon.
  unfold urllib.urlsplit.
  change (s ++ "://" ++ n ++ "/" ++ rest)
    with (s ++ String ":" ("//" ++ n ++ "/" ++ rest)).
  rewrite (find_first s _ ":" Hcolon).
  destruct s as [|c s]; [congruence|].
  change (String.length (String c s)) with (S (String.length s)).
  cbv iota beta.
  change (S (String.length s)) with (String.length (String c s)).
  rewrite !take_app, !drop_app_cons.
  destruct (String.eqb (String c s) "http");
    [now apply urlsplit_rest_url|].
  rewrite Hs.
  change (String.eqb ("//" ++ n ++ "/" ++ rest) "") with false.
  change (urllib.all_in ("//" ++ n ++ "/" ++ rest) urllib.digits)
    with false.
  cbn [orb negb]. cbv iota. now apply urlsplit_rest_url.
Qed.

End UrlTargets.

Section UrlTargetResult.

Variables s n rest : string.

Hypothesis scheme_not_empty : s <> "".
Hypothesis scheme_well_formed : urllib.all_in s urllib.scheme_chars = true.
Hypothesis netloc_not_empty : n <> "".
Hypothesis netloc_well_formed : none_of n "/?#[]" = true.
Hypothesis path_plain : none_of rest "?#;" = true.

Let url : string := s ++ "://" ++ n ++ "/" ++ rest.

Lemma urlparse_url :
  urllib.urlparse url
  = Ok (urllib.mkParseResult (Str.lower s) n ("/" ++ rest) "" "" "").
Proof.
  assert (Hr : none_of rest "?#" = true /\ Str.contains rest ";" = false).
  { pose proof path_plain as H. cbn [none_of] in *.
    rewrite !andb_true_r, !andb_true_iff, !negb_true_iff in *. tauto. }
  destruct Hr as [Hr Hsc].
  unfold urllib.urlparse, url.
  rewrite (urlsplit_url s n rest scheme_not_empty scheme_well_formed
             netloc_well_formed Hr).
  cbn [bind urllib.s_scheme urllib.s_netloc urllib.s_path urllib.s_query
       urllib.s_fragment].
  change (Str.contains ("/" ++ rest) ";") with (Str.contains rest ";").
  now rewrite Hsc, andb_false_r.
Qed.

Lemma lower_not_empty : Str.lower s <> "".
Proof. destruct s; [now contradiction scheme_not_empty | discriminate]. Qed.

Lemma url_base_dir (config : hdfs) :
  tmp_dir config = None ->
  tmppath_base_dir config (Some url)
  = Ok (Str.lower s ++ "://" ++ n ++ "/tmp").
Proof.
  intros Hc. unfold tmppath_base_dir. rewrite Hc, urlparse_url.
  cbn [bind urllib.scheme urllib.netloc]. f_equal.
  unfold urllib.urlunparse, urllib.urlunsplit.
  cbn [urllib.scheme urllib.netloc urllib.path urllib.params urllib.query
       urllib.fragment urllib.s_scheme urllib.s_netloc urllib.s_path
       urllib.s_query urllib.s_fragment].
  change (String.eqb "" "") with true. cbn [negb]. cbv iota.
  pose proof netloc_not_empty as Hn. apply String.eqb_neq in Hn.
  pose proof lower_not_empty as Hl. apply String.eqb_neq in Hl.
  rewrite Hn, Hl. cbn [negb orb]. cbv iota.
  change (negb (String.eqb temp_dir "")
          && negb (String.eqb (Str.take 1 temp_dir) "/")) with false.
  reflexivity.
Qed.

Lemma url_not_under_tmp : Str.startswith url (temp_dir ++ "/") = false.
Proof.
  unfold url. pose proof scheme_well_formed as H.
  destruct s as [|c s']; [now contradiction scheme_not_empty|].
  cbn [urllib.all_in] in H. apply andb_true_iff in H as [Hc _].
  change (temp_dir ++ "/") with "/tmp/". cbn [append Str.startswith].
  destruct (Ascii.eqb c "/") eqn:E; [|reflexivity].
  apply Ascii.eqb_eq in E. subst c. discriminate.
Qed.

Lemma url_subdir :
  tmppath_subdir (Some url) = Ok (Str.lstrip rest "/" ++ "-").
Proof.
  unfold tmppath_subdir. rewrite url_not_under_tmp, urlparse_url.
  reflexivity.
Qed.


End UrlTargetResult.

(** ** The further theorems at concrete inputs *)

Section MoreInstances.

Lemma luigi_user_name : user_name "luigi".
Proof.
  split; [discriminate|]. split; reflexivity.
Defined.


Lemma get_configured_hdfs_client_settled_snakebite :
  true = true
  /\ ~ In (fst (get_configured_hdfs_client true (mkHdfs "snakebite" None)))
       snakebite_clients.
Proof.
  split; [reflexivity|].
  exact (proj1 (get_configured_hdfs_client_settled true
                  (mkHdfs "snakebite" None)) eq_refl).
Defined.

Lemma get_configured_hdfs_client_warns_snakebite :
  fst (get_configured_hdfs_client true (mkHdfs "snakebite" None))
  <> "snakebite"
  /\ snd (get_configured_hdfs_client true (mkHdfs "snakebite" None)) <> [].
Proof.
  assert (H : fst (get_configured_hdfs_client true (mkHdfs "snakebite" None))
              <> "snakebite") by discriminate.
  split; [exact H|].
  exact (proj2 (proj1 (get_configured_hdfs_client_warns_iff_replaced true
                         (mkHdfs "snakebite" None))) H).
Defined.

Lemma load_hadoop_cmd_join_round_trip_hadoop :
  Forall token ["hadoop"; "--config"; "/etc/hadoop"]
  /\ load_hadoop_cmd
       (mkHadoopcli (Str.join " " ["hadoop"; "--config"; "/etc/hadoop"])
          "cdh4")
     = ["hadoop"; "--config"; "/etc/hadoop"].
Proof.
  assert (H : Forall token ["hadoop"; "--config"; "/etc/hadoop"]).
  { repeat constructor; discriminate. }
  split; [exact H|].
  exact (proj1 (load_hadoop_cmd_join_round_trip
                  ["hadoop"; "--config"; "/etc/hadoop"] "cdh4") H).
Defined.

Lemma load_hadoop_cmd_concatenation_hadoop :
  (all_space "  " = true /\ "  " <> "")
  /\ load_hadoop_cmd (mkHadoopcli ("hadoop" ++ "  " ++ "fs -ls") "cdh4")
     = (load_hadoop_cmd (mkHadoopcli "hadoop" "cdh4")
        ++ load_hadoop_cmd (mkHadoopcli "fs -ls" "cdh4"))%list.
Proof.
  assert (Hne : "  " <> "") by discriminate.
  split; [exact (conj eq_refl Hne)|].
  exact (proj2 (proj2 (load_hadoop_cmd_concatenation "hadoop" "  " "fs -ls"
                         "cdh4" eq_refl)) Hne).
Defined.

Lemma tmppath_ends_with_addon_data :
  (tmppath hdfs_default "luigi" "0123456789abcdef0123456789abcdef"
     (Some "/data/x") true
   = Ok "/tmp/luigi/data/x-luigitemp-0123456789abcdef0123456789abcdef"
   /\ uuid_hex "0123456789abcdef0123456789abcdef" = true)
  /\ exists stem,
       basename
         "/tmp/luigi/data/x-luigitemp-0123456789abcdef0123456789abcdef"
       = stem ++ addon "0123456789abcdef0123456789abcdef".
Proof.
  split; [exact (conj eq_refl eq_refl)|].
  exact (proj2 (tmppath_ends_with_addon hdfs_default "luigi"
                  "0123456789abcdef0123456789abcdef" (Some "/data/x") true
                  _ eq_refl) eq_refl).
Defined.

Lemma tmppath_result_layout_hdfs :
  (tmppath_base_dir hdfs_default (Some "hdfs://nn:8020/a/b/c")
   = Ok "hdfs://nn:8020/tmp"
   /\ tmppath_subdir (Some "hdfs://nn:8020/a/b/c") = Ok "a/b/c-"
   /\ tmp_dir hdfs_default = None
   /\ user_name "luigi")
  /\ tmppath hdfs_default "luigi" "0123456789abcdef0123456789abcdef"
       (Some "hdfs://nn:8020/a/b/c") true
     = Ok ("hdfs://nn:8020/tmp" ++ "/" ++ "luigi" ++ "/" ++ "a/b/c-"
           ++ addon "0123456789abcdef0123456789abcdef").
Proof.
  split;
    [exact (conj eq_refl (conj eq_refl (conj eq_refl luigi_user_name)))|].
  exact (proj2 (tmppath_result_layout hdfs_default "luigi"
                  "0123456789abcdef0123456789abcdef"
                  (Some "hdfs://nn:8020/a/b/c") "hdfs://nn:8020/tmp"
                  "a/b/c-" eq_refl eq_refl (or_introl eq_refl))
           luigi_user_name).
Defined.




Lemma tmppath_target_under_tmp_foo :
  (tmp_dir hdfs_default = None /\ user_name "luigi")
  /\ tmppath hdfs_default "luigi" "0123456789abcdef0123456789abcdef"
       (Some "/tmp/foo?x") true
     = Ok "/tmp/luigi/foo?x-luigitemp-0123456789abcdef0123456789abcdef".
Proof.
  split; [exact (conj eq_refl luigi_user_name)|].
  exact (proj2 (tmppath_target_under_tmp hdfs_default "luigi"
                  "0123456789abcdef0123456789abcdef" "foo?x" eq_refl)
           luigi_user_name).
Defined.


End MoreInstances.
